(** * RoV finance portal: the ledger model of [models.py], [database.py] and [app.py]

    The SQLite database behind the SQLAlchemy session is modelled as a record of
    tables, each table a list of rows in insertion order.  Every operation of the
    application is a function from a store (and the inputs of the run: form
    values, the reply of the remote rate service, fresh salts) to a new store and
    the messages shown to the user.  Python exceptions are values of [result].

    Python floats are modelled as exact rationals ([Q]); statements that compare
    computed amounts use [==] ([Qeq]). *)

From Stdlib Require Import ZArith QArith String Ascii List Lia.
From stdpp Require Import gmap strings list.

Local Open Scope string_scope.
Local Open Scope Z_scope.

(** ** Python values that the code compares or uses as keys *)

(** [class TransactionType(enum.Enum)] of models.py. *)
Inductive TransactionType := INCOME | EXPENSE.

#[global] Instance TransactionType_eq_dec : EqDecision TransactionType.
Proof. solve_decision. Defined.

(** [member.value] *)
Definition value (m : TransactionType) : string :=
  match m with INCOME => "income" | EXPENSE => "expense" end.

(** [member.name] *)
Definition name (m : TransactionType) : string :=
  match m with INCOME => "INCOME" | EXPENSE => "EXPENSE" end.

(** The two kinds of Python object that reach the [type] attribute and the
    column labels of the monthly frame: a member of [TransactionType] or a
    [str]. *)
Inductive pyval :=
| PyEnum (m : TransactionType)
| PyStr (s : string).

#[global] Instance pyval_eq_dec : EqDecision pyval.
Proof. solve_decision. Defined.

(** Python [==]: a member of a plain [enum.Enum] is equal to itself only, never
    to its value; strings compare by content. *)
Definition py_eq (a b : pyval) : bool :=
  match a, b with
  | PyEnum m, PyEnum m' => bool_decide (m = m')
  | PyStr s, PyStr s' => bool_decide (s = s')
  | _, _ => false
  end.

(** Exceptions the modelled code can meet. *)
Inductive exn :=
| LookupError        (* a stored enum text that names no member *)
| KeyError           (* a dict subscript with a missing key *)
| ZeroDivisionError
| RequestException   (* transport failure or HTTP error status *)
| ParseError         (* response.json() or data['rates']['INR'] fails *)
| DecodeError.       (* base64.b64decode fails *)

Inductive result (A : Type) :=
| Ok (a : A)
| Raise (e : exn).
Arguments Ok {A} a.
Arguments Raise {A} e.

#[global] Instance result_ret : MRet result := @Ok.
#[global] Instance result_bind : MBind result := fun A B k r =>
  match r with Ok a => k a | Raise e => Raise e end.

(** The [Enum(TransactionType)] column type: members are persisted by name; a
    string that is not a member's name is written as it is; on load the stored
    text is looked up among the names. *)
Definition enum_bind (elem : pyval) : string :=
  match elem with PyEnum m => name m | PyStr s => s end.

Definition enum_result (elem : string) : result TransactionType :=
  if bool_decide (elem = "INCOME") then Ok INCOME
  else if bool_decide (elem = "EXPENSE") then Ok EXPENSE
  else Raise LookupError.

(** ** Calendar dates ([datetime.date]) *)

Record Date := mkDate { year : Z; month : Z; day : Z }.

#[global] Instance Date_eq_dec : EqDecision Date.
Proof. solve_decision. Defined.

Definition is_leap (y : Z) : bool :=
  (y mod 4 =? 0) && (negb (y mod 100 =? 0) || (y mod 400 =? 0)).

Definition days_before_year (y : Z) : Z :=
  let y := y - 1 in y * 365 + y / 4 - y / 100 + y / 400.

(** The tables [_DAYS_IN_MONTH] and [_DAYS_BEFORE_MONTH] (of a common year). *)
Definition DAYS_IN_MONTH (m : Z) : Z :=
  if m =? 2 then 28
  else if (m =? 4) || (m =? 6) || (m =? 9) || (m =? 11) then 30 else 31.

Fixpoint DAYS_BEFORE_MONTH_aux (m : nat) : Z :=
  match m with
  | O => 0
  | S m' => DAYS_BEFORE_MONTH_aux m' + DAYS_IN_MONTH (Z.of_nat m)
  end.

Definition DAYS_BEFORE_MONTH (m : Z) : Z := DAYS_BEFORE_MONTH_aux (Z.to_nat (m - 1)).

Definition days_before_month (y m : Z) : Z :=
  DAYS_BEFORE_MONTH m + (if (2 <? m) && is_leap y then 1 else 0).

(** [date.toordinal()] *)
Definition toordinal (d : Date) : Z :=
  days_before_year (year d) + days_before_month (year d) (month d) + day d.

(** [date.fromordinal(n)] *)
Definition fromordinal (n : Z) : Date :=
  let n := n - 1 in
  let n400 := n / 146097 in let n := n mod 146097 in
  let n100 := n / 36524 in let n := n mod 36524 in
  let n4 := n / 1461 in let n := n mod 1461 in
  let n1 := n / 365 in let n := n mod 365 in
  let y := n400 * 400 + 1 + n100 * 100 + n4 * 4 + n1 in
  if (n1 =? 4) || (n100 =? 4) then mkDate (y - 1) 12 31
  else
    let leapyear := (n1 =? 3) && (negb (n4 =? 24) || (n100 =? 3)) in
    let m := Z.shiftr (n + 50) 5 in
    let preceding := DAYS_BEFORE_MONTH m + (if (2 <? m) && leapyear then 1 else 0) in
    if n <? preceding then
      let m := m - 1 in
      let preceding :=
        preceding - (DAYS_IN_MONTH m + (if (m =? 2) && leapyear then 1 else 0)) in
      mkDate y m (n - preceding + 1)
    else mkDate y m (n - preceding + 1).

(** [d - timedelta(days=n)] *)
Definition minus_days (d : Date) (n : Z) : Date := fromordinal (toordinal d - n).

(** [d1 >= d2] on dates. *)
Definition date_geb (d1 d2 : Date) : bool := toordinal d2 <=? toordinal d1.

Definition digit (n : Z) : ascii := ascii_of_nat (48 + Z.to_nat (n mod 10)).

(** SQLite [strftime('%Y-%m', d)]. *)
Definition strftime_Y_m (d : Date) : string :=
  let y := year d in let m := month d in
  String (digit (y / 1000)) (String (digit (y / 100)) (String (digit (y / 10))
    (String (digit y) (String "-" (String (digit (m / 10)) (String (digit m) "")))))).

(** ** The tables of models.py *)

Module Account.
Record t := mk { id : Z; name : string; currency_code : string }.
End Account.

Module Category.
Record t := mk { id : Z; name : string }.
End Category.

Module User.
Record t := mk { id : Z; username : string; password_hash : string; role : string }.
End User.

Module ExchangeRate.
Record t := mk { id : Z; date : Date; usd_to_inr : Q }.
End ExchangeRate.

(** A [Transaction] has three shapes that differ in two attributes only:
    - a new object, not yet flushed: no [id] ([I := unit]) and the [type] the
      constructor was given, any Python value ([T := pyval]);
    - a row of the table: an integer [id] and the stored text ([T := string]);
    - an object loaded by the ORM: an integer [id] and a member of
      [TransactionType] ([T := TransactionType]). *)
Module Transaction.
Record t {I T : Type} := mk {
  id : I;
  date : Date;
  type : T;
  amount : Q;
  description : option string;
  counterparty : option string;
  is_void : bool;
  exchange_rate : option Q;
  transfer_id : option Z;
  account_id : Z;
  category_id : Z }.
Arguments t : clear implicits.
Arguments mk {I T}.

Definition with_type {I T T'} (x : t I T) (ty : T') : t I T' :=
  mk (id x) (date x) ty (amount x) (description x) (counterparty x) (is_void x)
     (exchange_rate x) (transfer_id x) (account_id x) (category_id x).

Definition with_id {I I' T} (x : t I T) (i : I') : t I' T :=
  mk i (date x) (type x) (amount x) (description x) (counterparty x) (is_void x)
     (exchange_rate x) (transfer_id x) (account_id x) (category_id x).

Definition with_is_void {I T} (x : t I T) (b : bool) : t I T :=
  mk (id x) (date x) (type x) (amount x) (description x) (counterparty x) b
     (exchange_rate x) (transfer_id x) (account_id x) (category_id x).
End Transaction.

Abbreviation NewTransaction := (Transaction.t unit pyval).
Abbreviation TransactionRow := (Transaction.t Z string).
Abbreviation LoadedTransaction := (Transaction.t Z TransactionType).

Record Store := mkStore {
  accounts : list Account.t;
  categories : list Category.t;
  users : list User.t;
  exchange_rates : list ExchangeRate.t;
  transactions : list TransactionRow }.

Definition empty_store : Store := mkStore [] [] [] [] [].

(** The integer primary key SQLite gives a new row: one more than the largest
    key of the table, 1 in an empty table. *)
Definition next_id (ids : list Z) : Z := 1 + fold_right Z.max 0 ids.

(** The ORM turns a row into an object; this fails on a stored [type] that is
    no member name. *)
Definition load (row : TransactionRow) : result LoadedTransaction :=
  m ← enum_result (Transaction.type row); mret (Transaction.with_type row m).

(** [session.flush] of one new transaction into the table. *)
Definition insert_transaction (rows : list TransactionRow) (x : NewTransaction)
  : list TransactionRow :=
  (rows ++ [Transaction.with_id
              (Transaction.with_type x (enum_bind (Transaction.type x)))
              (next_id (map Transaction.id rows))])%list.

(** ** [Account.balance] (models.py) *)

Local Open Scope Q_scope.

(** The loop of [balance] over [self.transactions]. *)
Definition balance (transactions : list LoadedTransaction) : Q :=
  fold_left
    (fun total transaction =>
       if negb (Transaction.is_void transaction) then
         if py_eq (PyEnum (Transaction.type transaction)) (PyStr (value INCOME))
         then total + Transaction.amount transaction
         else total - Transaction.amount transaction
       else total)
    transactions 0.

Local Close Scope Q_scope.

(** The relationship [account.transactions]: the rows of the account, loaded. *)
Definition account_transactions (s : Store) (account : Account.t)
  : result (list LoadedTransaction) :=
  mapM load
    (filter (fun r => Transaction.account_id r = Account.id account) (transactions s)).

(** [get_account_balance] (app.py) *)
Definition get_account_balance (s : Store) (account_id : Z) : result Q :=
  match find (fun a => bool_decide (Account.id a = account_id)) (accounts s) with
  | Some account => txs ← account_transactions s account; mret (balance txs)
  | None => mret 0%Q
  end.

(** ** What a page shows ([st.success], [st.error], ...) *)

Inductive message :=
| st_success (text : string)
| st_error (text : string)
| st_error_exn (text : string) (e : exn)   (* f"...: {e}" *)
| st_warning (text : string)
| st_write (converted_amount : Q)
| uncaught (e : exn).                      (* the script run stops with a traceback *)

(** ** Password hashing ([hash_password], [verify_password] of database.py)

    PBKDF2-HMAC-SHA256 (100000 iterations, [length=32]) and the base64 codec
    come from libraries; they are the operations of this class.  The derived key
    has the requested length; decoding may raise. *)

#[global] Instance byte_eq_dec : EqDecision Byte.byte := Byte.byte_eq_dec.

Class CryptoLib := {
  pbkdf2 : forall (salt password : list Byte.byte), list Byte.byte;
  pbkdf2_length : forall salt password, length (pbkdf2 salt password) = 32%nat;
  b64encode : list Byte.byte -> string;
  b64decode : string -> result (list Byte.byte) }.

Section Passwords.
Context `{CryptoLib}.

(** [password.encode()] *)
Definition encode (password : string) : list Byte.byte := list_byte_of_string password.

(** [hash_password(password, salt)]; [salt] is the value of [generate_salt()]
    when the caller gives none. *)
Definition hash_password (password : string) (salt : list Byte.byte) : string :=
  let key := pbkdf2 salt (encode password) in
  b64encode (salt ++ key)%list.

(** The body of the [try] of [verify_password]. *)
Definition verify_password_try (stored_hash provided_password : string) : result bool :=
  decoded ← b64decode stored_hash;
  let salt_from_db := take 16 decoded in
  let key_from_db := drop 16 decoded in
  let new_key := pbkdf2 salt_from_db (encode provided_password) in
  mret (bool_decide (new_key = key_from_db)).

(** [verify_password]: [except Exception: return False]. *)
Definition verify_password (stored_hash provided_password : string) : result bool :=
  match verify_password_try stored_hash provided_password with
  | Ok b => Ok b
  | Raise _ => Ok false
  end.
End Passwords.

(** ** Store initialisation ([fix_enum_data], [init_db] of database.py) *)

(** What one run of a script takes from outside the store. *)
Inductive Reply :=
| RequestFailed            (* requests.get or raise_for_status raises *)
| BadPayload               (* the body is no JSON or has no rates.INR *)
| Rates (inr : Q).         (* data['rates']['INR'] *)

Record Env := mkEnv {
  today : Date;                     (* date.today() *)
  reply : Reply;                    (* the answer of api.frankfurter.app *)
  admin_salt : list Byte.byte;      (* secrets.token_bytes(16), first call *)
  viewer_salt : list Byte.byte }.   (* secrets.token_bytes(16), second call *)

Definition set_transactions (s : Store) (rows : list TransactionRow) : Store :=
  mkStore (accounts s) (categories s) (users s) (exchange_rates s) rows.

Definition set_exchange_rates (s : Store) (rows : list ExchangeRate.t) : Store :=
  mkStore (accounts s) (categories s) (users s) rows (transactions s).

(** [UPDATE transactions SET type = new WHERE type = old] *)
Definition update_type (old new : string) (rows : list TransactionRow)
  : list TransactionRow :=
  map (fun r => if bool_decide (Transaction.type r = old)
                then Transaction.with_type r new else r) rows.

Definition fix_enum_data (s : Store) : Store :=
  let problematic_records :=
    filter (fun r => Transaction.type r = "income" \/ Transaction.type r = "expense")
           (transactions s) in
  match problematic_records with
  | [] => s
  | _ :: _ =>
      set_transactions s
        (update_type "expense" "EXPENSE" (update_type "income" "INCOME" (transactions s)))
  end.

Definition default_categories : list string :=
  [ "Client Revenue"; "Software Expense"; "Salary"; "Office Supplies"; "Marketing";
    "Contractor Fees"; "Inter-Account Transfer In"; "Inter-Account Transfer Out";
    "Other Income"; "Other Expense" ].

(** [session.query(Account).filter_by(currency_code=c).first()] and its like. *)
Definition account_by_currency (s : Store) (c : string) : option Account.t :=
  find (fun a => bool_decide (Account.currency_code a = c)) (accounts s).

Definition category_by_name (s : Store) (n : string) : option Category.t :=
  find (fun c => bool_decide (Category.name c = n)) (categories s).

Definition user_by_username (s : Store) (u : string) : option User.t :=
  find (fun x => bool_decide (User.username x = u)) (users s).

(** The INSERT of one new row, with the key the table gives it. *)
Definition insert_account (rows : list Account.t) (x : string * string) : list Account.t :=
  (rows ++ [Account.mk (next_id (map Account.id rows)) (fst x) (snd x)])%list.

Definition insert_category (rows : list Category.t) (n : string) : list Category.t :=
  (rows ++ [Category.mk (next_id (map Category.id rows)) n])%list.

Definition insert_user (rows : list User.t) (x : string * string * string) : list User.t :=
  (rows ++ [User.mk (next_id (map User.id rows)) (fst (fst x)) (snd (fst x)) (snd x)])%list.

Section InitDb.
Context `{CryptoLib}.

(** The session has [autoflush=False]: every query of [init_db] sees the
    tables as they were when the session began, and the added objects are
    written by the one [commit] at the end. *)
Definition init_db (env : Env) (s0 : Store) : Store :=
  let s := fix_enum_data s0 in
  let new_accounts :=
    ((if account_by_currency s "USD" is Some _ then []
      else [("US Business Account", "USD")])
     ++ (if account_by_currency s "INR" is Some _ then []
         else [("India Business Account", "INR")]))%list in
  let new_categories :=
    filter (fun cat_name => category_by_name s cat_name = None) default_categories in
  let admin_password_hash := hash_password "admin123" (admin_salt env) in
  let viewer_password_hash := hash_password "view123" (viewer_salt env) in
  let new_users :=
    ((if user_by_username s "admin" is Some _ then []
      else [("admin", admin_password_hash, "admin")])
     ++ (if user_by_username s "viewer" is Some _ then []
         else [("viewer", viewer_password_hash, "viewer")]))%list in
  mkStore (fold_left insert_account new_accounts (accounts s))
          (fold_left insert_category new_categories (categories s))
          (fold_left insert_user new_users (users s))
          (exchange_rates s)
          (transactions s).
End InitDb.

(** ** The rate provider ([get_latest_exchange_rate],
       [fetch_and_store_exchange_rate] of app.py) *)

(** [order_by(ExchangeRate.date.desc()).first()]: a row of the latest date, the
    earliest such row of the table. *)
Definition latest_rate_row (rows : list ExchangeRate.t) : option ExchangeRate.t :=
  fold_left
    (fun best r =>
       match best with
       | None => Some r
       | Some b => if toordinal (ExchangeRate.date b) <? toordinal (ExchangeRate.date r)
                   then Some r else Some b
       end)
    rows None.

Definition fetch_and_store_exchange_rate (env : Env) (s : Store)
  : Store * result Q * list message :=
  match reply env with
  | RequestFailed => (s, Ok 83%Q, [st_error_exn "Failed to fetch exchange rate" RequestException])
  | BadPayload => (s, Ok 83%Q, [st_error_exn "An error occurred" ParseError])
  | Rates current_rate =>
      match find (fun r => bool_decide (ExchangeRate.date r = today env)) (exchange_rates s) with
      | None =>
          let new_rate :=
            ExchangeRate.mk (next_id (map ExchangeRate.id (exchange_rates s)))
                            (today env) current_rate in
          (set_exchange_rates s (exchange_rates s ++ [new_rate])%list, Ok current_rate,
           [st_success "Fetched and stored new exchange rate"])
      | Some existing_rate =>
          (set_exchange_rates s
             (map (fun r => if bool_decide (ExchangeRate.id r = ExchangeRate.id existing_rate)
                            then ExchangeRate.mk (ExchangeRate.id r) (ExchangeRate.date r)
                                                 current_rate
                            else r)
                  (exchange_rates s)),
           Ok current_rate, [])
      end
  end.

Definition get_latest_exchange_rate (env : Env) (s : Store)
  : Store * result Q * list message :=
  match latest_rate_row (exchange_rates s) with
  | Some latest_rate => (s, Ok (ExchangeRate.usd_to_inr latest_rate), [])
  | None => fetch_and_store_exchange_rate env s
  end.

(** ** Dropdown dictionaries ([get_all_accounts], [get_all_categories]) *)

(** [f"{acc.name} ({acc.currency_code})"] *)
Definition account_label (acc : Account.t) : string :=
  (Account.name acc ++ " (" ++ Account.currency_code acc ++ ")")%string.

(** The dict comprehension keeps, for a label that occurs twice, the id met
    last.  The queries order the rows by name; rows with one label have one
    name, so the order among the others does not change the dict. *)
Definition get_all_accounts (s : Store) : gmap string Z :=
  fold_left (fun d acc => <[account_label acc := Account.id acc]> d) (accounts s) ∅.

Definition get_all_categories (s : Store) : gmap string Z :=
  fold_left (fun d cat => <[Category.name cat := Category.id cat]> d) (categories s) ∅.

(** [d[key]] *)
Definition subscript (d : gmap string Z) (key : string) : result Z :=
  match d !! key with Some v => Ok v | None => Raise KeyError end.

(** [needle in haystack] on strings. *)
Fixpoint contains (needle haystack : string) : bool :=
  String.prefix needle haystack
  || match haystack with
     | EmptyString => false
     | String _ rest => contains needle rest
     end.

(** ** [void_transaction] (app.py) *)

Definition void_transaction (s : Store) (transaction_id : Z) : Store * list message :=
  match find (fun r => bool_decide (Transaction.id r = transaction_id)) (transactions s) with
  | Some row =>
      match load row with
      | Ok transaction =>
          (set_transactions s
             (map (fun r => if bool_decide (Transaction.id r = Transaction.id transaction)
                            then Transaction.with_is_void r true else r)
                  (transactions s)),
           [st_success "Transaction voided successfully."])
      | Raise e => (s, [st_error_exn "Error voiding transaction" e])
      end
  | None => (s, [st_error "Transaction not found."])
  end.

(** ** [add_transaction_page] (app.py) *)

(** [st.number_input(label, min_value=m)]: the script never gets a number below
    the bound.  An entry below the bound is not taken, and the field holds the
    bound, which is its initial value. *)
Definition number_input (min_value entered : Q) : Q :=
  if Qle_bool min_value entered then entered else min_value.

Module AddForm.
Record t := mk {
  trans_date : Date;
  trans_type : TransactionType;   (* the option of st.radio that is selected *)
  account_name : string;
  amount : Q;                     (* the number entered in the field "Amount" *)
  category_name : string;
  counterparty : string;
  description : string;
  submitted : bool }.
End AddForm.

(** The body of the [try] under [if submitted:]; [amount] is the value of the
    amount field. *)
Definition add_transaction_try (s : Store) (f : AddForm.t) (amount : Q) : result Store :=
  account_id ← subscript (get_all_accounts s) (AddForm.account_name f);
  category_id ← subscript (get_all_categories s) (AddForm.category_name f);
  let new_transaction : NewTransaction :=
    Transaction.mk tt (AddForm.trans_date f) (PyStr (value (AddForm.trans_type f)))
      amount (Some (AddForm.description f)) (Some (AddForm.counterparty f))
      false None None account_id category_id in
  mret (set_transactions s (insert_transaction (transactions s) new_transaction)).

(** [amount = st.number_input("Amount", min_value=0.0, format="%.2f")] is part of
    the page. *)
Definition add_transaction_page (s : Store) (f : AddForm.t) : Store * list message :=
  let amount := number_input 0%Q (AddForm.amount f) in
  if AddForm.submitted f then
    match add_transaction_try s f amount with
    | Ok s' => (s', [st_success "Transaction added successfully!"])
    | Raise e => (s, [st_error_exn "Error adding transaction" e])
    end
  else (s, []).

(** ** [transfer_funds_page] (app.py) *)

Module TransferForm.
Record t := mk {
  trans_date : Date;
  from_account_name : string;
  amount : Q;                     (* st.number_input(..., min_value=0.01) *)
  to_account_name : string;
  description : string;
  submitted : bool }.
End TransferForm.

(** Python [/] on floats. *)
Definition py_div (a b : Q) : result Q :=
  if Qeq_bool b 0 then Raise ZeroDivisionError else Ok (a / b)%Q.

(** The body of the [try] under [if submitted and from_account_name != to_account_name:]. *)
Definition transfer_try (s : Store) (latest_rate : Q) (f : TransferForm.t)
    (from_acc_id to_acc_id : Z) : result Store :=
  out_id ← subscript (get_all_categories s) "Inter-Account Transfer Out";
  let withdrawal : NewTransaction :=
    Transaction.mk tt (TransferForm.trans_date f) (PyStr (value EXPENSE))
      (TransferForm.amount f) (Some (TransferForm.description f))
      (Some "Internal Transfer") false (Some latest_rate) None from_acc_id out_id in
  deposit_amount ←
    (if contains "USD" (TransferForm.from_account_name f)
     then Ok (TransferForm.amount f * latest_rate)%Q
     else py_div (TransferForm.amount f) latest_rate);
  in_id ← subscript (get_all_categories s) "Inter-Account Transfer In";
  let deposit : NewTransaction :=
    Transaction.mk tt (TransferForm.trans_date f) (PyStr (value INCOME))
      deposit_amount (Some (TransferForm.description f))
      (Some "Internal Transfer") false (Some latest_rate) None to_acc_id in_id in
  mret (set_transactions s
          (insert_transaction (insert_transaction (transactions s) withdrawal) deposit)).

(** The estimate shown above the button; its division is outside any [try]. *)
Definition transfer_preview (latest_rate : Q) (f : TransferForm.t) : result message :=
  if contains "USD" (TransferForm.from_account_name f)
     && contains "INR" (TransferForm.to_account_name f)
  then Ok (st_write (TransferForm.amount f * latest_rate)%Q)
  else if contains "INR" (TransferForm.from_account_name f)
          && contains "USD" (TransferForm.to_account_name f)
  then converted_amount ← py_div (TransferForm.amount f) latest_rate;
       mret (st_write converted_amount)
  else Ok (st_warning "Please select different accounts for transfer.").

Definition transfer_funds_page (env : Env) (s0 : Store) (f : TransferForm.t)
  : Store * list message :=
  let accounts := get_all_accounts s0 in
  let '(s, rate, shown) := get_latest_exchange_rate env s0 in
  match rate with
  | Raise e => (s, shown ++ [uncaught e])%list
  | Ok latest_rate =>
      if bool_decide (TransferForm.from_account_name f <> TransferForm.to_account_name f)
      then
        match subscript accounts (TransferForm.from_account_name f),
              subscript accounts (TransferForm.to_account_name f) with
        | Ok from_acc_id, Ok to_acc_id =>
            match transfer_preview latest_rate f with
            | Raise e => (s, shown ++ [uncaught e])%list
            | Ok estimate =>
                if TransferForm.submitted f then
                  match transfer_try s latest_rate f from_acc_id to_acc_id with
                  | Ok s' =>
                      (s', shown ++ [estimate; st_success "Funds transferred successfully!"])%list
                  | Raise e =>
                      (s, shown ++ [estimate; st_error_exn "Error transferring funds" e])%list
                  end
                else (s, shown ++ [estimate])%list
            end
        | Raise e, _ | _, Raise e => (s, shown ++ [uncaught e])%list
        end
      else (s, shown ++ [st_error "Cannot transfer between the same account."])%list
  end.

(** ** Monthly totals ([get_profit_loss_data] of app.py) *)

(** One row of the grouped query: month label, stored type, [sum(amount)]. *)
Definition group_row : Type := string * string * Q.

(** [GROUP BY month, type] with [sum(amount)]: the row joins the group of its
    key or opens a new one.  Groups are listed in the order their first row is
    met; SQL fixes no order and the pivot below does not depend on one. *)
Fixpoint add_to_group (month type : string) (amount : Q) (groups : list group_row)
  : list group_row :=
  match groups with
  | [] => [(month, type, amount)]
  | (m, t, total) :: rest =>
      if bool_decide (m = month /\ t = type)
      then (m, t, total + amount)%Q :: rest
      else (m, t, total) :: add_to_group month type amount rest
  end.

Definition monthly_query (start_date : Date) (rows : list TransactionRow) : list group_row :=
  fold_left
    (fun groups r =>
       if date_geb (Transaction.date r) start_date && negb (Transaction.is_void r)
       then add_to_group (strftime_Y_m (Transaction.date r)) (Transaction.type r)
                         (Transaction.amount r) groups
       else groups)
    rows [].

(** The result tuples as Python sees them: the [type] column goes through the
    enum type of the column. *)
Definition load_group (g : group_row) : result (string * pyval * Q) :=
  let '(m, t, total) := g in
  member ← enum_result t; mret (m, PyEnum member, total).

(** A frame: index labels, column labels, and one list of cells per index
    label, in the order of the columns. *)
Record DataFrame := mkDataFrame {
  df_index : list string;
  df_columns : list pyval;
  df_values : list (list Q) }.

Fixpoint insert_sorted (x : string) (l : list string) : list string :=
  match l with
  | [] => [x]
  | y :: l' => if String.leb x y then x :: l else y :: insert_sorted x l'
  end.

Definition sort_labels (l : list string) : list string := fold_right insert_sorted [] l.

(** Distinct elements in the order of their first occurrence. *)
Definition unique {A} `{EqDecision A} (l : list A) : list A :=
  fold_left (fun seen x => if bool_decide (x ∈ seen) then seen else (seen ++ [x])%list) l [].

(** [df.pivot(index='month', columns='type', values='total_amount').fillna(0)]:
    the index is sorted, the column labels (enum members, which have no order)
    keep the order of their first occurrence, a missing cell is filled with 0. *)
Definition pivot_fillna (results : list (string * pyval * Q)) : DataFrame :=
  let idx := sort_labels (unique (map (fun r => fst (fst r)) results)) in
  let cols := unique (map (fun r => snd (fst r)) results) in
  mkDataFrame idx cols
    (map (fun m =>
            map (fun c =>
                   match find (fun r => bool_decide (fst (fst r) = m /\ snd (fst r) = c))
                              results with
                   | Some r => snd r
                   | None => 0%Q
                   end)
                cols)
         idx).

(** [if t not in df.columns: df[t] = 0.0] *)
Definition ensure_column (t : pyval) (df : DataFrame) : DataFrame :=
  if bool_decide (t ∈ df_columns df) then df
  else mkDataFrame (df_index df) (df_columns df ++ [t])%list
                   (map (fun cells => cells ++ [0%Q])%list (df_values df)).

Definition get_profit_loss_data (env : Env) (months : Z) (s : Store) : result DataFrame :=
  let start_date := minus_days (today env) (30 * months) in
  results ← mapM load_group (monthly_query start_date (transactions s));
  match results with
  | _ :: _ =>
      let df_pivot := pivot_fillna results in
      mret (fold_left (fun df t => ensure_column t df)
                      [PyStr (value INCOME); PyStr (value EXPENSE)] df_pivot)
  | [] =>
      mret (mkDataFrame [] [PyStr "month"; PyStr (value INCOME); PyStr (value EXPENSE)] [])
  end.

(** [df.loc[month, column]] *)
Definition df_loc (df : DataFrame) (month : string) (column : pyval) : option Q :=
  i ← list_find (fun m => m = month) (df_index df);
  j ← list_find (fun c => c = column) (df_columns df);
  cells ← df_values df !! fst i;
  cells !! fst j.

(** [df[column]]: the cells of one column, one per index label; Python raises
    a KeyError when no column has the label. *)
Definition df_getitem (df : DataFrame) (column : pyval) : option (list Q) :=
  j ← list_find (fun c => c = column) (df_columns df);
  mapM (fun cells : list Q => cells !! fst j) (df_values df).

(** ** Script runs ([main] of app.py)

    Streamlit runs the script from the top at every interaction: [main] calls
    [init_db] and then the page that is selected.  The pages that write are
    listed; every other page leaves the store as [init_db] left it.  Who may
    open which page (login, role) only restricts the runs, so the set of stores
    below contains every store the application can reach from an empty
    database. *)

Inductive Action :=
| Browse                                   (* login, reports, or any page without a click *)
| Dashboard                                (* dashboard_page *)
| Void (transaction_id : Z)                (* view_transactions_page, "Void Transaction" *)
| AddTransaction (f : AddForm.t)           (* add_transaction_page *)
| TransferFunds (f : TransferForm.t).      (* transfer_funds_page *)

Section Runs.
Context `{CryptoLib}.

Definition script_run (env : Env) (a : Action) (s0 : Store) : Store :=
  let s := init_db env s0 in
  match a with
  | Browse => s
  | Dashboard =>
      match get_account_balance s 1, get_account_balance s 2 with
      | Ok _, Ok _ => fst (fst (get_latest_exchange_rate env s))
      | _, _ => s
      end
  | Void transaction_id => fst (void_transaction s transaction_id)
  | AddTransaction f => fst (add_transaction_page s f)
  | TransferFunds f => fst (transfer_funds_page env s f)
  end.

Inductive reachable : Store -> Prop :=
| reachable_empty : reachable empty_store
| reachable_run env a s : reachable s -> reachable (script_run env a s).
End Runs.

(** ** The balance as the specification words it

    The sum of the amounts of the non-void INCOME transactions minus the sum of
    the amounts of the non-void EXPENSE transactions. *)

Definition sum_amounts (txs : list LoadedTransaction) : Q :=
  fold_right (fun t acc => (Transaction.amount t + acc)%Q) 0%Q txs.

Definition balance_spec (txs : list LoadedTransaction) : Q :=
  (sum_amounts (filter (fun t => Transaction.is_void t = false
                                 /\ Transaction.type t = INCOME) txs)
   - sum_amounts (filter (fun t => Transaction.is_void t = false
                                   /\ Transaction.type t = EXPENSE) txs))%Q.

(** ** Concrete stores and inputs used in the examples *)

(** A stand-in for the two libraries, to run the model on concrete inputs: the
    "key" is the first 32 bytes of password, salt and padding; the codec is the
    identity on byte strings and refuses strings that contain ['!']. *)
Definition sample_crypto : CryptoLib.
Proof.
  refine {| pbkdf2 := fun salt password =>
              take 32 (password ++ salt ++ replicate 32 Byte.x00)%list;
            b64encode := string_of_list_byte;
            b64decode := fun s => if contains "!" s then Raise DecodeError
                                  else Ok (list_byte_of_string s) |}.
  intros salt password. rewrite length_take, !length_app, length_replicate. lia.
Defined.

Definition seed_accounts : list Account.t :=
  [ Account.mk 1 "US Business Account" "USD"; Account.mk 2 "India Business Account" "INR" ].

Definition seed_categories : list Category.t :=
  [ Category.mk 1 "Client Revenue"; Category.mk 2 "Software Expense";
    Category.mk 3 "Salary"; Category.mk 4 "Office Supplies"; Category.mk 5 "Marketing";
    Category.mk 6 "Contractor Fees"; Category.mk 7 "Inter-Account Transfer In";
    Category.mk 8 "Inter-Account Transfer Out"; Category.mk 9 "Other Income";
    Category.mk 10 "Other Expense" ].

Definition sample_env : Env :=
  mkEnv (mkDate 2024 2 15) (Rates (167 # 2)) [Byte.x01] [Byte.x02].

(** A row as a run leaves it after [fix_enum_data]: no description, no rate. *)
Definition plain_row (id : Z) (d : Date) (m : TransactionType) (amount : Q) (is_void : bool)
    (account_id : Z) : TransactionRow :=
  Transaction.mk id d (name m) amount None None is_void None None account_id 1.

(** The USD account with a single income of 100. *)
Definition one_income_store : Store :=
  mkStore seed_accounts seed_categories [] []
          [plain_row 1 (mkDate 2024 1 5) INCOME 100 false 1].

(** The store after the first run on an empty database (with the stand-in
    library): the seed rows and nothing else. *)
Definition seeded_store : Store := @init_db sample_crypto sample_env empty_store.

(** An add-transaction form in which -5 was entered as the amount. *)
Definition negative_form : AddForm.t :=
  AddForm.mk (mkDate 2024 2 15) EXPENSE "US Business Account (USD)" (-5) "Salary" "" "" true.

(** A form with amount zero. *)
Definition zero_form : AddForm.t :=
  AddForm.mk (mkDate 2024 2 15) INCOME "US Business Account (USD)" 0 "Other Income" "" "" true.

(** A transfer from the USD account to itself. *)
Definition same_account_form : TransferForm.t :=
  TransferForm.mk (mkDate 2024 2 15) "US Business Account (USD)" 100
                  "US Business Account (USD)" "Inter-Account Transfer" true.

(** A transfer of 100 from the USD account to the INR account. *)
Definition usd_to_inr_form : TransferForm.t :=
  TransferForm.mk (mkDate 2024 2 15) "US Business Account (USD)" 100
                  "India Business Account (INR)" "Inter-Account Transfer" true.

(** Three transactions in two months, the second one void. *)
Definition monthly_example : Store :=
  mkStore seed_accounts seed_categories [] []
          [ plain_row 1 (mkDate 2024 1 5) INCOME 500 false 1;
            plain_row 2 (mkDate 2024 1 20) EXPENSE 200 true 1;
            plain_row 3 (mkDate 2024 2 1) EXPENSE 100 false 1 ].

(** ** Predicates of the statements below *)

(** No row links to a transfer. *)
Definition no_transfer_id (rows : list TransactionRow) : Prop :=
  Forall (fun r => Transaction.transfer_id r = None) rows.

(** The accounts and categories are the seed rows. *)
Definition seeded_tables (s : Store) : Prop :=
  accounts s = seed_accounts /\ categories s = seed_categories.

(** Before the first run both tables are empty. *)
Definition blank_or_seeded (s : Store) : Prop :=
  (accounts s = [] /\ categories s = []) \/ seeded_tables s.

(** The two rows a transfer is to write: the withdrawal, an EXPENSE of the
    amount on the source account in category "Inter-Account Transfer Out", and
    the deposit, an INCOME of the converted amount on the target account in
    category "Inter-Account Transfer In"; both carry the rate and no
    [transfer_id].  The stored type is the member's value, which the next run's
    [fix_enum_data] turns into the member's name. *)
Definition withdrawal_row (id : Z) (f : TransferForm.t) (rate : Q)
    (from_acc_id out_id : Z) : TransactionRow :=
  Transaction.mk id (TransferForm.trans_date f) (value EXPENSE) (TransferForm.amount f)
    (Some (TransferForm.description f)) (Some "Internal Transfer") false (Some rate) None
    from_acc_id out_id.

Definition deposit_row (id : Z) (f : TransferForm.t) (rate converted : Q)
    (to_acc_id in_id : Z) : TransactionRow :=
  Transaction.mk id (TransferForm.trans_date f) (value INCOME) converted
    (Some (TransferForm.description f)) (Some "Internal Transfer") false (Some rate) None
    to_acc_id in_id.

(** The rows a transfer appends to [rows]. *)
Definition transfer_rows (rows : list TransactionRow) (f : TransferForm.t)
    (rate converted : Q) (from_acc_id to_acc_id out_id in_id : Z) : list TransactionRow :=
  let w := withdrawal_row (next_id (map Transaction.id rows)) f rate from_acc_id out_id in
  [ w;
    deposit_row (next_id (map Transaction.id (rows ++ [w])%list)) f rate converted
                to_acc_id in_id ].

(** The monthly total as the specification words it: the sum of the amounts of
    the non-void rows of one month and type, among the rows dated [start_date]
    or later. *)
Definition month_total (start_date : Date) (rows : list TransactionRow)
    (month type : string) : Q :=
  fold_right (fun r acc => (Transaction.amount r + acc)%Q) 0%Q
    (filter (fun r => date_geb (Transaction.date r) start_date = true
                      /\ Transaction.is_void r = false
                      /\ strftime_Y_m (Transaction.date r) = month
                      /\ Transaction.type r = type) rows).

(** The total the grouped query lists for a month and type, 0 when it lists none. *)
Definition group_total (groups : list group_row) (month type : string) : Q :=
  match find (fun g => bool_decide (fst (fst g) = month /\ snd (fst g) = type)) groups with
  | Some g => snd g
  | None => 0%Q
  end.

(** A frame has one list of cells per index label and one cell per column. *)
Definition rectangular (df : DataFrame) : Prop :=
  length (df_values df) = length (df_index df)
  /\ Forall (fun cells => length cells = length (df_columns df)) (df_values df).

(** A day long after the example's transactions. *)
Definition late_env : Env :=
  mkEnv (mkDate 2026 11 4) (Rates (167 # 2)) [Byte.x01] [Byte.x02].

(** ** Login ([login_page] of app.py) *)

(** [st.session_state] *)
Module Session.
Record t := mk {
  authenticated : bool;
  username : option string;
  role : option string;
  user_id : option Z;
  force_rerun : bool }.
End Session.

Section Login.
Context `{CryptoLib}.

(** The form of [login_page]; [submit_button] tells whether "Login" was
    clicked. *)
Definition login_page (s : Store) (st : Session.t) (username password : string)
    (submit_button : bool) : Session.t * list message :=
  if submit_button then
    match user_by_username s username with
    | Some user =>
        match verify_password (User.password_hash user) password with
        | Ok true =>
            (Session.mk true (Some (User.username user)) (Some (User.role user))
                        (Some (User.id user)) true,
             [st_success "Login successful!"])
        | Ok false => (st, [st_error "Invalid username or password."])
        | Raise e => (st, [uncaught e])
        end
    | None => (st, [st_error "Invalid username or password."])
    end
  else (st, []).
End Login.

(** ** The pie charts of the dashboard ([get_income_by_counterparty],
       [get_expenses_by_category] of app.py) *)

(** [GROUP BY key] with [sum(amount)], groups in the order their first row is
    met. *)
Fixpoint add_to_key (key : string) (amount : Q) (groups : list (string * Q))
  : list (string * Q) :=
  match groups with
  | [] => [(key, amount)]
  | (k, total) :: rest =>
      if bool_decide (k = key) then (k, total + amount)%Q :: rest
      else (k, total) :: add_to_key key amount rest
  end.

(** SQLite's [LIKE] folds the case of ASCII letters. *)
Definition ascii_lower (c : ascii) : ascii :=
  let n := nat_of_ascii c in
  if (65 <=? n)%nat && (n <=? 90)%nat then ascii_of_nat (n + 32) else c.

Fixpoint string_lower (s : string) : string :=
  match s with
  | EmptyString => EmptyString
  | String c rest => String (ascii_lower c) (string_lower rest)
  end.

(** [name LIKE '%Transfer%'] *)
Definition like_Transfer (name : string) : bool :=
  contains (string_lower "Transfer") (string_lower name).

(** The comparison [Transaction.type == TransactionType.INCOME.value] of a
    query binds the string through the column's type. *)
Definition get_income_by_counterparty (s : Store) : list (string * Q) :=
  fold_left
    (fun groups r =>
       match Transaction.counterparty r with
       | Some counterparty =>
           if bool_decide (Transaction.type r = enum_bind (PyStr (value INCOME)))
              && negb (Transaction.is_void r)
              && negb (bool_decide (counterparty = ""))
           then add_to_key counterparty (Transaction.amount r) groups
           else groups
       | None => groups
       end)
    (transactions s) [].

(** [.join(Transaction.category)]: a row without its category is left out. *)
Definition get_expenses_by_category (s : Store) : list (string * Q) :=
  fold_left
    (fun groups r =>
       match find (fun c => bool_decide (Category.id c = Transaction.category_id r))
                  (categories s) with
       | Some category =>
           if bool_decide (Transaction.type r = enum_bind (PyStr (value EXPENSE)))
              && negb (Transaction.is_void r)
              && negb (like_Transfer (Category.name category))
           then add_to_key (Category.name category) (Transaction.amount r) groups
           else groups
       | None => groups
       end)
    (transactions s) [].

(** ** Further predicates and sample data *)

(** The row as it is stored by a run and as the next run's [fix_enum_data]
    leaves it. *)
Definition normalise_type (r : TransactionRow) : TransactionRow :=
  if bool_decide (Transaction.type r = "income") then Transaction.with_type r "INCOME"
  else if bool_decide (Transaction.type r = "expense") then Transaction.with_type r "EXPENSE"
  else r.

(** The texts the application writes into the [type] column. *)
Definition written_type (r : TransactionRow) : Prop :=
  Transaction.type r = "INCOME" \/ Transaction.type r = "EXPENSE"
  \/ Transaction.type r = "income" \/ Transaction.type r = "expense".

(** The sum of the amounts of the rows. *)
Definition total_amount (rows : list TransactionRow) : Q :=
  fold_right (fun r acc => (Transaction.amount r + acc)%Q) 0%Q rows.

(** The total a pie query lists for a key, 0 when it lists none. *)
Definition key_total (groups : list (string * Q)) (key : string) : Q :=
  match find (fun g => bool_decide (fst g = key)) groups with
  | Some g => snd g
  | None => 0%Q
  end.

(** Salts as [generate_salt] makes them: 16 bytes. *)
Definition salted_env : Env :=
  mkEnv (mkDate 2024 2 15) (Rates (167 # 2)) (replicate 16 Byte.x01) (replicate 16 Byte.x02).

(** A store whose only rate is zero. *)
Definition zero_rate_store : Store :=
  mkStore seed_accounts seed_categories [] [ExchangeRate.mk 1 (mkDate 2024 2 1) 0] [].

(** A transfer of 100 from the INR account to the USD account. *)
Definition inr_to_usd_form : TransferForm.t :=
  TransferForm.mk (mkDate 2024 2 15) "India Business Account (INR)" 100
                  "US Business Account (USD)" "Inter-Account Transfer" true.

(** The rows that count as income from a counterparty. *)
Definition income_rows (rows : list TransactionRow) (counterparty : string)
  : list TransactionRow :=
  filter (fun r => Transaction.type r = "income" /\ Transaction.is_void r = false
                   /\ Transaction.counterparty r = Some counterparty) rows.

(** The rows of a store that count as expenses of the category named [n]. *)
Definition expense_rows (s : Store) (n : string) : list TransactionRow :=
  filter (fun r => Transaction.type r = "expense" /\ Transaction.is_void r = false
                   /\ option_map Category.name
                        (find (fun c => bool_decide (Category.id c
                                                     = Transaction.category_id r))
                              (categories s)) = Some n)
         (transactions s).

(** Two rows as a page has just stored them, before the next run's
    [fix_enum_data]. *)
Definition unfixed_store : Store :=
  mkStore seed_accounts seed_categories [] []
    [ Transaction.mk 1 (mkDate 2024 2 15) "income" 100 (Some "") (Some "Acme")
                     false None None 1 1;
      Transaction.mk 2 (mkDate 2024 2 15) "expense" 40 (Some "") (Some "Shop")
                     false None None 1 3;
      Transaction.mk 3 (mkDate 2024 2 15) "expense" 100 (Some "") (Some "Internal Transfer")
                     false (Some (167 # 2)%Q) None 1 8 ].

(** * Properties *)

(** ** Balance *)

Lemma balance_no_transactions : balance [] = 0%Q.
Proof. reflexivity. Qed.

(** The comparison in the loop is between a member and a string, so it is
    never true. *)
Lemma member_never_equals_value (m m' : TransactionType) :
  py_eq (PyEnum m) (PyStr (value m')) = false.
Proof. reflexivity. Qed.

Lemma balance_fold_from (txs : list LoadedTransaction) (a : Q) :
  (fold_left
     (fun total transaction =>
        if negb (Transaction.is_void transaction) then
          if py_eq (PyEnum (Transaction.type transaction)) (PyStr (value INCOME))
          then total + Transaction.amount transaction
          else total - Transaction.amount transaction
        else total)
     txs a
   == a - sum_amounts (filter (fun t => Transaction.is_void t = false) txs))%Q.
Proof.
  revert a. induction txs as [|t txs IH]; intros a.
  - simpl. ring.
  - simpl fold_left. rewrite IH, filter_cons.
    destruct (Transaction.is_void t) eqn:Hv; simpl.
    + destruct (decide (true = false)) as [E|_]; [discriminate E|]. reflexivity.
    + destruct (decide (false = false)) as [_|E]; [|contradiction]. simpl. ring.
Qed.

(** What the loop computes: minus the sum of all non-void amounts, whatever
    their type. *)
Lemma balance_subtracts_everything (txs : list LoadedTransaction) :
  (balance txs == - sum_amounts (filter (fun t => Transaction.is_void t = false) txs))%Q.
Proof. unfold balance. rewrite balance_fold_from. ring. Qed.

(** C1 (balance equals non-void income minus non-void expense).  On the USD
    account with one non-void income of 100 the code returns -100, where the
    stated sum is +100: the income is subtracted. *)
Theorem balance_subtracts_income :
  exists txs b,
    account_transactions one_income_store (Account.mk 1 "US Business Account" "USD") = Ok txs
    /\ get_account_balance one_income_store 1 = Ok b
    /\ (b == -100)%Q
    /\ (balance_spec txs == 100)%Q
    /\ ~ (b == balance_spec txs)%Q.
Proof.
  eexists _, _. repeat split; try reflexivity.
  vm_compute. discriminate.
Qed.

(** ** Voiding *)

Lemma find_map_same_key {A} (p : A -> bool) (g : A -> A) (l : list A) :
  (forall x, p (g x) = p x) -> find p (map g l) = option_map g (find p l).
Proof.
  intros Hp. induction l as [|x l IH]; simpl; [reflexivity|].
  rewrite Hp. destruct (p x); [reflexivity|exact IH].
Qed.

Lemma find_some_key (i : Z) (rows : list TransactionRow) (row : TransactionRow) :
  find (fun r => bool_decide (Transaction.id r = i)) rows = Some row ->
  Transaction.id row = i.
Proof.
  intros Hf. apply find_some in Hf as [_ Hid]. by apply bool_decide_eq_true in Hid.
Qed.

Lemma load_id (row : TransactionRow) (t : LoadedTransaction) :
  load row = Ok t -> Transaction.id t = Transaction.id row.
Proof.
  unfold load. destruct (enum_result (Transaction.type row)); simpl; [|discriminate].
  intros [= <-]. reflexivity.
Qed.

Lemma load_with_is_void (row : TransactionRow) (t : LoadedTransaction) (b : bool) :
  load row = Ok t ->
  load (Transaction.with_is_void row b) = Ok (Transaction.with_is_void t b).
Proof.
  unfold load. simpl. destruct (enum_result (Transaction.type row)); simpl; [|discriminate].
  intros [= <-]. reflexivity.
Qed.

(** Voiding a second time changes nothing, and is reported as a success. *)
Lemma void_transaction_twice (s : Store) (i : Z) :
  fst (void_transaction (fst (void_transaction s i)) i) = fst (void_transaction s i).
Proof.
  unfold void_transaction at 2 3.
  destruct (find _ (transactions s)) as [row|] eqn:Hf.
  - destruct (load row) as [t|e] eqn:Hl; simpl.
    + pose proof (find_some_key _ _ _ Hf) as Hrow.
      pose proof (load_id _ _ Hl) as Ht.
      unfold void_transaction. simpl.
      rewrite find_map_same_key, Hf; simpl.
      2:{ intros x. destruct (bool_decide (Transaction.id x = Transaction.id t)); reflexivity. }
      rewrite Ht, bool_decide_eq_true_2 by reflexivity.
      rewrite (load_with_is_void _ _ true Hl). simpl.
      unfold set_transactions; simpl. f_equal.
      rewrite map_map. apply map_ext. intros r.
      rewrite Ht. destruct (bool_decide (Transaction.id r = Transaction.id row)) eqn:E; simpl.
      * rewrite E. reflexivity.
      * rewrite E. reflexivity.
    + unfold void_transaction. rewrite Hf, Hl. reflexivity.
  - simpl. unfold void_transaction. rewrite Hf. reflexivity.
Qed.

(** C3 (voiding an INCOME transaction lowers the balance by its amount).  In
    the store with one non-void income of 100 the balance goes from -100 to 0
    when the transaction is voided: a change of +100, not -100.  This is the
    defect of [balance] shown for C1. *)
Theorem void_income_raises_balance :
  exists b b',
    get_account_balance one_income_store 1 = Ok b
    /\ get_account_balance (fst (void_transaction one_income_store 1)) 1 = Ok b'
    /\ (b' - b == 100)%Q
    /\ ~ (b' - b == -100)%Q.
Proof.
  eexists _, _. repeat split; try reflexivity.
  vm_compute. discriminate.
Qed.

(** ** The rate provider *)

(** C9: when the request or the parsing of the reply fails,
    [fetch_and_store_exchange_rate] returns 83.0 without raising and writes
    nothing. *)
Theorem fetch_failure_returns_fallback (env : Env) (s : Store) :
  reply env = RequestFailed \/ reply env = BadPayload ->
  exists shown, fetch_and_store_exchange_rate env s = (s, Ok 83%Q, shown).
Proof.
  unfold fetch_and_store_exchange_rate. intros [-> | ->]; eexists; reflexivity.
Qed.

Lemma fetch_failure_returns_fallback_witness :
  exists shown,
    fetch_and_store_exchange_rate (mkEnv (mkDate 2024 2 15) RequestFailed [] [])
                                  one_income_store
    = (one_income_store, Ok 83%Q, shown).
Proof.
  apply (fetch_failure_returns_fallback (mkEnv (mkDate 2024 2 15) RequestFailed [] [])).
  left. reflexivity.
Defined.

(** The rate functions never raise. *)
Lemma fetch_and_store_returns (env : Env) (s : Store) :
  exists rate, snd (fst (fetch_and_store_exchange_rate env s)) = Ok rate.
Proof.
  unfold fetch_and_store_exchange_rate.
  destruct (reply env); [eexists; reflexivity ..|].
  destruct (find _ _); eexists; reflexivity.
Qed.

Lemma get_latest_returns (env : Env) (s : Store) :
  exists rate, snd (fst (get_latest_exchange_rate env s)) = Ok rate.
Proof.
  unfold get_latest_exchange_rate. destruct (latest_rate_row _).
  - eexists; reflexivity.
  - apply fetch_and_store_returns.
Qed.

(** ** Password verification *)

(** C10: [verify_password] returns a boolean for every stored string; it
    returns [False] when the string does not decode and when the decoded bytes
    are too short to hold a 16-byte salt, and [True] exactly when the key
    derived from the password and the stored salt is the stored key. *)
Theorem verify_password_never_raises `{CryptoLib} (stored_hash provided_password : string) :
  exists b,
    verify_password stored_hash provided_password = Ok b
    /\ (forall e, b64decode stored_hash = Raise e -> b = false)
    /\ (forall decoded, b64decode stored_hash = Ok decoded ->
          (length decoded < 16)%nat -> b = false)
    /\ (b = true <->
        exists decoded, b64decode stored_hash = Ok decoded
          /\ pbkdf2 (take 16 decoded) (encode provided_password) = drop 16 decoded).
Proof.
  unfold verify_password, verify_password_try.
  destruct (b64decode stored_hash) as [decoded|e]; simpl.
  - eexists. split; [reflexivity|]. repeat split.
    + discriminate.
    + intros d [= <-] Hlen. apply bool_decide_eq_false. intros Heq.
      pose proof (pbkdf2_length (take 16 decoded) (encode provided_password)) as Hk.
      rewrite Heq, length_drop in Hk. lia.
    + intros Hb. apply bool_decide_eq_true in Hb. eauto.
    + intros (d & [= <-] & Heq). by apply bool_decide_eq_true.
  - exists false. repeat split; try reflexivity; try discriminate.
    intros (d & Hd & _). discriminate.
Qed.

(** ** Store initialisation *)

Lemma find_snoc {A} (p : A -> bool) (l : list A) (x : A) :
  find p (l ++ [x]) =
  match find p l with
  | Some y => Some y
  | None => if p x then Some x else None
  end.
Proof.
  induction l as [|y l IH]; simpl; [reflexivity|].
  destruct (p y); [reflexivity|exact IH].
Qed.

Lemma filter_none {A} (P : A -> Prop) `{forall x, Decision (P x)} (l : list A) :
  (forall x, x ∈ l -> ~ P x) -> filter P l = [].
Proof.
  induction l as [|x l IH]; intros Hl; [reflexivity|].
  rewrite filter_cons. destruct (decide (P x)) as [HP|_].
  - exfalso. apply (Hl x); [left|exact HP].
  - apply IH. intros y Hy. apply Hl. by right.
Qed.

(** After the two updates no row has a lowercase type. *)
Lemma update_type_fixed (rows : list TransactionRow) :
  filter (fun r => Transaction.type r = "income" \/ Transaction.type r = "expense")
         (update_type "expense" "EXPENSE" (update_type "income" "INCOME" rows)) = [].
Proof.
  apply filter_none. intros r Hr. unfold update_type in Hr.
  rewrite map_map in Hr. apply list_elem_of_fmap in Hr as (r0 & -> & _).
  destruct (bool_decide (Transaction.type r0 = "income")) eqn:E1; simpl.
  - intros [E|E]; discriminate E.
  - apply bool_decide_eq_false in E1.
    destruct (bool_decide (Transaction.type r0 = "expense")) eqn:E2; simpl.
    + intros [E|E]; discriminate E.
    + apply bool_decide_eq_false in E2. tauto.
Qed.

Lemma fix_enum_data_fixed (s : Store) :
  filter (fun r => Transaction.type r = "income" \/ Transaction.type r = "expense")
         (transactions (fix_enum_data s)) = [].
Proof.
  unfold fix_enum_data. destruct (filter _ (transactions s)) eqn:E.
  - exact E.
  - simpl. apply update_type_fixed.
Qed.

Lemma fix_enum_data_twice (s : Store) : fix_enum_data (fix_enum_data s) = fix_enum_data s.
Proof.
  generalize (fix_enum_data_fixed s). generalize (fix_enum_data s). intros s' Hs'.
  unfold fix_enum_data. rewrite Hs'. reflexivity.
Qed.

Lemma fix_enum_data_tables (s : Store) :
  accounts (fix_enum_data s) = accounts s
  /\ categories (fix_enum_data s) = categories s
  /\ users (fix_enum_data s) = users s
  /\ exchange_rates (fix_enum_data s) = exchange_rates s.
Proof. unfold fix_enum_data. destruct (filter _ _); repeat split. Qed.

(** A row that is looked up by its natural key is found after the inserts when
    it was there before or its key is among the inserted ones. *)
Lemma account_found_after (c : string) (new : list (string * string)) (rows : list Account.t) :
  is_Some (find (fun a => bool_decide (Account.currency_code a = c)) rows)
  \/ c ∈ map snd new ->
  is_Some (find (fun a => bool_decide (Account.currency_code a = c))
                (fold_left insert_account new rows)).
Proof.
  revert rows. induction new as [|x new IH]; intros rows [Hin|Hin]; simpl.
  - exact Hin.
  - inversion Hin.
  - apply IH. left. unfold insert_account. rewrite find_snoc.
    destruct Hin as [y ->]. eauto.
  - apply IH. simpl in Hin. apply elem_of_cons in Hin as [->|Hin]; [left|by right].
    unfold insert_account. rewrite find_snoc. destruct (find _ rows); [eauto|].
    simpl. rewrite bool_decide_eq_true_2 by reflexivity. eauto.
Qed.

Lemma category_found_after (n : string) (new : list string) (rows : list Category.t) :
  is_Some (find (fun c => bool_decide (Category.name c = n)) rows) \/ n ∈ new ->
  is_Some (find (fun c => bool_decide (Category.name c = n))
                (fold_left insert_category new rows)).
Proof.
  revert rows. induction new as [|x new IH]; intros rows [Hin|Hin]; simpl.
  - exact Hin.
  - inversion Hin.
  - apply IH. left. unfold insert_category. rewrite find_snoc.
    destruct Hin as [y ->]. eauto.
  - apply IH. apply elem_of_cons in Hin as [->|Hin]; [left|by right].
    unfold insert_category. rewrite find_snoc. destruct (find _ rows); [eauto|].
    simpl. rewrite bool_decide_eq_true_2 by reflexivity. eauto.
Qed.

Lemma user_found_after (u : string) (new : list (string * string * string))
    (rows : list User.t) :
  is_Some (find (fun x => bool_decide (User.username x = u)) rows)
  \/ u ∈ map (fun x => fst (fst x)) new ->
  is_Some (find (fun x => bool_decide (User.username x = u))
                (fold_left insert_user new rows)).
Proof.
  revert rows. induction new as [|x new IH]; intros rows [Hin|Hin]; simpl.
  - exact Hin.
  - inversion Hin.
  - apply IH. left. unfold insert_user. rewrite find_snoc.
    destruct Hin as [y ->]. eauto.
  - apply IH. simpl in Hin. apply elem_of_cons in Hin as [->|Hin]; [left|by right].
    unfold insert_user. rewrite find_snoc. destruct (find _ rows); [eauto|].
    simpl. rewrite bool_decide_eq_true_2 by reflexivity. eauto.
Qed.

Section InitDbProperties.
Context `{CryptoLib}.

Lemma init_db_transactions (env : Env) (s : Store) :
  transactions (init_db env s) = transactions (fix_enum_data s)
  /\ exchange_rates (init_db env s) = exchange_rates s.
Proof.
  unfold init_db. simpl. split; [reflexivity|]. apply fix_enum_data_tables.
Qed.

Lemma init_db_has_account (env : Env) (s : Store) (c : string) :
  c = "USD" \/ c = "INR" -> is_Some (account_by_currency (init_db env s) c).
Proof.
  intros Hc. unfold account_by_currency at 1, init_db. simpl.
  apply account_found_after. unfold account_by_currency.
  destruct (find (fun a => bool_decide (Account.currency_code a = "USD")) _) eqn:E1;
    destruct (find (fun a => bool_decide (Account.currency_code a = "INR")) _) eqn:E2;
    destruct Hc as [-> | ->]; simpl;
    first [ left; rewrite ?E1, ?E2; by eauto | right; set_solver ].
Qed.

Lemma init_db_has_category (env : Env) (s : Store) (n : string) :
  n ∈ default_categories -> is_Some (category_by_name (init_db env s) n).
Proof.
  intros Hn. unfold category_by_name at 1, init_db. simpl.
  apply category_found_after.
  destruct (category_by_name (fix_enum_data s) n) eqn:E.
  - left. unfold category_by_name in E. rewrite E. eauto.
  - right. apply list_elem_of_filter. split; assumption.
Qed.

Lemma init_db_has_user (env : Env) (s : Store) (u : string) :
  u = "admin" \/ u = "viewer" -> is_Some (user_by_username (init_db env s) u).
Proof.
  intros Hu. unfold user_by_username at 1, init_db. simpl.
  apply user_found_after. unfold user_by_username.
  destruct (find (fun x => bool_decide (User.username x = "admin")) _) eqn:E1;
    destruct (find (fun x => bool_decide (User.username x = "viewer")) _) eqn:E2;
    destruct Hu as [-> | ->]; simpl;
    first [ left; rewrite ?E1, ?E2; by eauto | right; set_solver ].
Qed.

(** A second initialisation, whatever its salts and date, writes nothing. *)
Lemma init_db_idempotent (env env' : Env) (s : Store) :
  init_db env' (init_db env s) = init_db env s.
Proof.
  assert (Hfix : fix_enum_data (init_db env s) = init_db env s).
  { unfold fix_enum_data.
    replace (transactions (init_db env s)) with (transactions (fix_enum_data s))
      by (symmetry; apply init_db_transactions).
    rewrite fix_enum_data_fixed. reflexivity. }
  destruct (init_db_has_account env s "USD") as [a1 Ha1]; [by left|].
  destruct (init_db_has_account env s "INR") as [a2 Ha2]; [by right|].
  destruct (init_db_has_user env s "admin") as [u1 Hu1]; [by left|].
  destruct (init_db_has_user env s "viewer") as [u2 Hu2]; [by right|].
  pose proof (init_db_has_category env s) as Hcat.
  revert Hfix Ha1 Ha2 Hu1 Hu2 Hcat. generalize (init_db env s).
  intros s1 Hfix Ha1 Ha2 Hu1 Hu2 Hcat.
  unfold init_db. rewrite Hfix. cbv zeta. rewrite Ha1, Ha2, Hu1, Hu2.
  rewrite (filter_none (fun cat_name => category_by_name s1 cat_name = None)).
  - simpl. destruct s1; reflexivity.
  - intros n Hn Hnone. destruct (Hcat n Hn) as [c Hc]. congruence.
Qed.

(** C8: from an empty database [init_db] writes the two accounts, the ten
    categories and the two users; running it again (with other salts, on
    another day) leaves exactly these rows, and no currency, category name or
    username occurs twice. *)
Theorem init_db_twice_same_seed (env env' : Env) :
  let s1 := init_db env empty_store in
  let s2 := init_db env' s1 in
  s2 = s1
  /\ accounts s2 = seed_accounts
  /\ categories s2 = seed_categories
  /\ map Category.name (categories s2) = default_categories
  /\ length (categories s2) = 10%nat
  /\ map (fun u => (User.username u, User.role u)) (users s2)
     = [("admin", "admin"); ("viewer", "viewer")]
  /\ NoDup (map Account.currency_code (accounts s2))
  /\ NoDup (map Category.name (categories s2))
  /\ NoDup (map User.username (users s2)).
Proof.
  intros s1 s2. assert (E : s2 = s1) by apply init_db_idempotent.
  rewrite E. split; [reflexivity|].
  assert (Ha : accounts s1 = seed_accounts) by reflexivity.
  assert (Hc : categories s1 = seed_categories) by reflexivity.
  assert (Hu : map User.username (users s1) = ["admin"; "viewer"]) by reflexivity.
  rewrite Ha, Hc, Hu.
  repeat split; try reflexivity;
    apply (bool_decide_unpack _); vm_compute; exact I.
Qed.
End InitDbProperties.

(** ** Adding a transaction *)

Lemma number_input_bound (min_value entered : Q) :
  (min_value <= number_input min_value entered)%Q.
Proof.
  unfold number_input. destruct (Qle_bool min_value entered) eqn:E.
  - by apply Qle_bool_iff.
  - apply Qle_refl.
Qed.

Lemma number_input_above (min_value entered : Q) :
  (min_value <= entered)%Q -> number_input min_value entered = entered.
Proof.
  intros Hle. unfold number_input. apply Qle_bool_iff in Hle. by rewrite Hle.
Qed.

Lemma number_input_below (min_value entered : Q) :
  (entered < min_value)%Q -> number_input min_value entered = min_value.
Proof.
  intros Hlt. unfold number_input. destruct (Qle_bool min_value entered) eqn:E; [|reflexivity].
  apply Qle_bool_iff in E. exfalso. by apply (Qlt_not_le _ _ Hlt).
Qed.

(** C4, as the code has it: the page has no validation of its own, and the
    amount it works with is the value of the amount field, which the bound
    [min_value=0.0] keeps at or above zero: a number of at least zero is taken
    as entered, a number below zero gives 0.  For every submitted form whose
    account and category are listed, exactly one new non-void transaction with
    that amount is inserted and success is reported, whatever was entered. *)
Theorem add_transaction_inserts (s : Store) (f : AddForm.t) (account_id category_id : Z) :
  AddForm.submitted f = true ->
  get_all_accounts s !! AddForm.account_name f = Some account_id ->
  get_all_categories s !! AddForm.category_name f = Some category_id ->
  let amount := number_input 0 (AddForm.amount f) in
  add_transaction_page s f =
  (set_transactions s
     (transactions s ++
      [Transaction.mk (next_id (map Transaction.id (transactions s)))
         (AddForm.trans_date f) (value (AddForm.trans_type f)) amount
         (Some (AddForm.description f)) (Some (AddForm.counterparty f))
         false None None account_id category_id]),
   [st_success "Transaction added successfully!"])
  /\ (0 <= amount)%Q
  /\ ((0 <= AddForm.amount f)%Q -> amount = AddForm.amount f)
  /\ ((AddForm.amount f < 0)%Q -> amount = 0%Q).
Proof.
  intros Hsub Hacc Hcat amount. split.
  - unfold add_transaction_page, add_transaction_try, subscript.
    rewrite Hsub, Hacc, Hcat. reflexivity.
  - split; [apply number_input_bound|].
    split; [apply number_input_above | apply number_input_below].
Qed.

Lemma add_transaction_inserts_witness :
  add_transaction_page seeded_store zero_form =
  (set_transactions seeded_store
     [Transaction.mk 1 (mkDate 2024 2 15) "income" 0%Q (Some "") (Some "")
                     false None None 1 9],
   [st_success "Transaction added successfully!"])
  /\ (0 <= number_input 0 (AddForm.amount zero_form))%Q.
Proof.
  destruct (add_transaction_inserts seeded_store zero_form 1 9) as (Hpage & Hbound & _);
    [vm_compute; reflexivity ..|].
  split; [exact Hpage | exact Hbound].
Defined.

(** C4 as stated fails: with -5 entered as the amount the page shows no
    validation error and does not leave the table alone; it inserts a row, of
    amount 0, and reports success. *)
Lemma add_transaction_negative_not_rejected :
  (AddForm.amount negative_form < 0)%Q
  /\ add_transaction_page seeded_store negative_form =
     (set_transactions seeded_store
        [Transaction.mk 1 (mkDate 2024 2 15) "expense" 0%Q (Some "") (Some "")
                        false None None 1 3],
      [st_success "Transaction added successfully!"])
  /\ transactions (fst (add_transaction_page seeded_store negative_form))
     <> transactions seeded_store.
Proof.
  split; [reflexivity|]. split; [vm_compute; reflexivity|].
  intros E. vm_compute in E. discriminate E.
Qed.

(** ** The rate provider and the other tables *)

Lemma latest_rate_row_some (r : ExchangeRate.t) (rows : list ExchangeRate.t) :
  is_Some (latest_rate_row (r :: rows)).
Proof.
  unfold latest_rate_row. simpl. generalize r. clear r.
  induction rows as [|x rows IH]; intros r; simpl; [eauto|].
  destruct (_ <? _); apply IH.
Qed.

Lemma fetch_and_store_tables (env : Env) (s : Store) :
  let s' := fst (fst (fetch_and_store_exchange_rate env s)) in
  accounts s' = accounts s /\ categories s' = categories s
  /\ users s' = users s /\ transactions s' = transactions s.
Proof.
  unfold fetch_and_store_exchange_rate.
  destruct (reply env); [repeat split ..|]. destruct (find _ _); repeat split.
Qed.

Lemma get_latest_tables (env : Env) (s : Store) :
  let s' := fst (fst (get_latest_exchange_rate env s)) in
  accounts s' = accounts s /\ categories s' = categories s
  /\ users s' = users s /\ transactions s' = transactions s.
Proof.
  unfold get_latest_exchange_rate. destruct (latest_rate_row _).
  - repeat split.
  - apply fetch_and_store_tables.
Qed.

(** With a rate in the table, or a failing fetch, the lookup writes nothing. *)
Lemma get_latest_unchanged (env : Env) (s : Store) :
  exchange_rates s <> [] \/ reply env = RequestFailed \/ reply env = BadPayload ->
  fst (fst (get_latest_exchange_rate env s)) = s.
Proof.
  unfold get_latest_exchange_rate. intros Hs.
  destruct (exchange_rates s) as [|r rows] eqn:E.
  - simpl. destruct Hs as [Hs|Hs]; [contradiction|].
    unfold fetch_and_store_exchange_rate. destruct Hs as [-> | ->]; reflexivity.
  - destruct (latest_rate_row_some r rows) as [x ->]. reflexivity.
Qed.

(** With an empty rate table and a fetch that succeeds, the lookup stores the
    fetched rate as the first row of the table, dated today. *)
Lemma get_latest_stores (env : Env) (s : Store) (current_rate : Q) :
  exchange_rates s = [] -> reply env = Rates current_rate ->
  get_latest_exchange_rate env s
  = (set_exchange_rates s [ExchangeRate.mk 1 (today env) current_rate],
     Ok current_rate, [st_success "Fetched and stored new exchange rate"]).
Proof.
  intros Hrows Hreply. unfold get_latest_exchange_rate, fetch_and_store_exchange_rate.
  rewrite Hrows, Hreply. reflexivity.
Qed.

(** ** Transfers between one account and itself *)

(** What the page does when both selections are the same label. *)
Lemma transfer_same_label (env : Env) (s : Store) (f : TransferForm.t) :
  TransferForm.from_account_name f = TransferForm.to_account_name f ->
  exists rate,
    snd (fst (get_latest_exchange_rate env s)) = Ok rate
    /\ transfer_funds_page env s f =
       (fst (fst (get_latest_exchange_rate env s)),
        (snd (get_latest_exchange_rate env s)
         ++ [st_error "Cannot transfer between the same account."])%list).
Proof.
  intros Hsame. destruct (get_latest_returns env s) as [rate Hrate].
  exists rate. split; [exact Hrate|].
  unfold transfer_funds_page.
  destruct (get_latest_exchange_rate env s) as [[s' r] shown]. simpl in *. subst r.
  rewrite bool_decide_eq_false_2; [reflexivity|]. intros Hne. apply Hne, Hsame.
Qed.

(** C5, as the code has it: a transfer from an account to itself always ends
    with the error "Cannot transfer between the same account." and writes no
    transaction; accounts, categories and users are untouched as well.  The
    whole store is unchanged when a rate is already stored or the fetch fails.
    In the one case left, an empty rate table and a fetch that succeeds, the
    page has stored the fetched rate before the check: the rate table holds
    that one row, dated today, nothing else has changed, and so the store is
    not the one before. *)
Theorem transfer_same_account_rejected (env : Env) (s : Store) (f : TransferForm.t) :
  TransferForm.from_account_name f = TransferForm.to_account_name f ->
  let s' := fst (transfer_funds_page env s f) in
  last (snd (transfer_funds_page env s f))
  = Some (st_error "Cannot transfer between the same account.")
  /\ transactions s' = transactions s
  /\ accounts s' = accounts s /\ categories s' = categories s /\ users s' = users s
  /\ (exchange_rates s <> [] \/ reply env = RequestFailed \/ reply env = BadPayload ->
      s' = s)
  /\ (forall current_rate,
        exchange_rates s = [] -> reply env = Rates current_rate ->
        exchange_rates s' = [ExchangeRate.mk 1 (today env) current_rate]
        /\ s' = set_exchange_rates s [ExchangeRate.mk 1 (today env) current_rate]
        /\ s' <> s).
Proof.
  intros Hsame. destruct (transfer_same_label env s f Hsame) as (rate & _ & ->).
  simpl. destruct (get_latest_tables env s) as (Ha & Hc & Hu & Ht).
  split; [apply last_snoc|]. repeat split; try assumption.
  - apply get_latest_unchanged.
  - rewrite (get_latest_stores env s current_rate); [reflexivity|assumption ..].
  - rewrite (get_latest_stores env s current_rate); [reflexivity|assumption ..].
  - rewrite (get_latest_stores env s current_rate); [|assumption ..].
    simpl. intros E. apply (f_equal exchange_rates) in E. simpl in E. congruence.
Qed.

(** Both cases at work: on a store without a rate the fetched rate 83.5 is
    stored, on the same store with a rate of 83 in the table nothing changes. *)
Lemma transfer_same_account_rejected_witness :
  let rate_row := ExchangeRate.mk 1 (mkDate 2024 2 1) 83 in
  fst (transfer_funds_page sample_env one_income_store same_account_form)
  = set_exchange_rates one_income_store [ExchangeRate.mk 1 (mkDate 2024 2 15) (167 # 2)]
  /\ last (snd (transfer_funds_page sample_env one_income_store same_account_form))
     = Some (st_error "Cannot transfer between the same account.")
  /\ fst (transfer_funds_page sample_env (set_exchange_rates one_income_store [rate_row])
                              same_account_form)
     = set_exchange_rates one_income_store [rate_row].
Proof.
  intros rate_row.
  destruct (transfer_same_account_rejected sample_env one_income_store same_account_form
              eq_refl) as (Hlast & _ & _ & _ & _ & _ & Hfetched).
  destruct (Hfetched (167 # 2)%Q eq_refl eq_refl) as (_ & Hstored & _).
  destruct (transfer_same_account_rejected sample_env
              (set_exchange_rates one_income_store [rate_row]) same_account_form
              eq_refl) as (_ & _ & _ & _ & _ & Hunchanged & _).
  split; [exact Hstored|]. split; [exact Hlast|].
  apply Hunchanged. left. intros E. discriminate E.
Defined.

(** C5 as stated fails: with no rate in the table and a fetch that succeeds,
    the rejected transfer leaves a new row in the rate table. *)
Lemma transfer_same_account_stores_rate :
  TransferForm.from_account_name same_account_form
  = TransferForm.to_account_name same_account_form
  /\ exchange_rates seeded_store = []
  /\ exchange_rates (fst (transfer_funds_page sample_env seeded_store same_account_form))
     = [ExchangeRate.mk 1 (mkDate 2024 2 15) (167 # 2)]
  /\ fst (transfer_funds_page sample_env seeded_store same_account_form) <> seeded_store.
Proof.
  split; [reflexivity|]. split; [vm_compute; reflexivity|].
  split; [vm_compute; reflexivity|].
  intros E. apply (f_equal exchange_rates) in E. vm_compute in E. discriminate E.
Qed.

(** ** Transfers between two accounts *)

(** A transfer that goes through has found both categories and computed the
    converted amount, and has appended the two rows, nothing else. *)
Lemma transfer_try_ok (s : Store) (rate : Q) (f : TransferForm.t) (a b : Z) (s' : Store) :
  transfer_try s rate f a b = Ok s' ->
  exists out_id in_id converted,
    subscript (get_all_categories s) "Inter-Account Transfer Out" = Ok out_id
    /\ subscript (get_all_categories s) "Inter-Account Transfer In" = Ok in_id
    /\ (if contains "USD" (TransferForm.from_account_name f)
        then Ok (TransferForm.amount f * rate)%Q
        else py_div (TransferForm.amount f) rate) = Ok converted
    /\ s' = set_transactions s
              (transactions s
               ++ transfer_rows (transactions s) f rate converted a b out_id in_id)%list.
Proof.
  unfold transfer_try. intros Htry.
  destruct (subscript _ "Inter-Account Transfer Out") as [out_id|e]; [|discriminate Htry].
  destruct (if contains "USD" _ then _ else _) as [converted|e]; [|discriminate Htry].
  destruct (subscript _ "Inter-Account Transfer In") as [in_id|e]; [|discriminate Htry].
  exists out_id, in_id, converted. repeat split.
  injection Htry as <-. unfold insert_transaction, transfer_rows.
  rewrite <- app_assoc. reflexivity.
Qed.

Lemma transfer_try_success (s : Store) (rate : Q) (f : TransferForm.t)
    (a b out_id in_id : Z) (converted : Q) :
  subscript (get_all_categories s) "Inter-Account Transfer Out" = Ok out_id ->
  subscript (get_all_categories s) "Inter-Account Transfer In" = Ok in_id ->
  (if contains "USD" (TransferForm.from_account_name f)
   then Ok (TransferForm.amount f * rate)%Q
   else py_div (TransferForm.amount f) rate) = Ok converted ->
  transfer_try s rate f a b =
  Ok (set_transactions s
        (transactions s
         ++ transfer_rows (transactions s) f rate converted a b out_id in_id)%list).
Proof.
  intros Hout Hin Hconv. unfold transfer_try. rewrite Hout, Hconv, Hin.
  simpl. f_equal. f_equal. unfold insert_transaction, transfer_rows.
  rewrite <- app_assoc. reflexivity.
Qed.

(** The store the page leaves is the one the rate lookup left, or the one a
    transfer that went through made of it. *)
Lemma transfer_funds_page_store (env : Env) (s0 : Store) (f : TransferForm.t) :
  let s := fst (fst (get_latest_exchange_rate env s0)) in
  fst (transfer_funds_page env s0 f) = s
  \/ exists rate a b, transfer_try s rate f a b = Ok (fst (transfer_funds_page env s0 f)).
Proof.
  unfold transfer_funds_page.
  destruct (get_latest_exchange_rate env s0) as [[s r] shown]. simpl.
  destruct r as [rate|e]; [|by left].
  destruct (bool_decide _); [|by left].
  destruct (subscript _ (TransferForm.from_account_name f)) as [a|e]; [|by left].
  destruct (subscript _ (TransferForm.to_account_name f)) as [b|e]; [|by left].
  destruct (transfer_preview rate f); [|by left].
  destruct (TransferForm.submitted f); [|by left].
  destruct (transfer_try s rate f a b) as [s'|e] eqn:Htry; [|by left].
  right. exists rate, a, b. exact Htry.
Qed.

(** Both rows or neither: whatever the form and the rate source, the page either
    leaves the transactions as they were or appends exactly the two rows. *)
Lemma transfer_all_or_nothing (env : Env) (s : Store) (f : TransferForm.t) :
  let rows := transactions s in
  let rows' := transactions (fst (transfer_funds_page env s f)) in
  rows' = rows
  \/ exists rate converted a b out_id in_id,
       rows' = (rows ++ transfer_rows rows f rate converted a b out_id in_id)%list.
Proof.
  simpl. destruct (get_latest_tables env s) as (_ & _ & _ & Ht).
  destruct (transfer_funds_page_store env s f) as [-> | (rate & a & b & Htry)].
  - left. exact Ht.
  - right. apply transfer_try_ok in Htry as (o & i & c & _ & _ & _ & ->).
    exists rate, c, a, b, o, i. simpl. rewrite Ht. reflexivity.
Qed.

Lemma transfer_funds_page_tables (env : Env) (s : Store) (f : TransferForm.t) :
  accounts (fst (transfer_funds_page env s f)) = accounts s
  /\ categories (fst (transfer_funds_page env s f)) = categories s.
Proof.
  destruct (get_latest_tables env s) as (Ha & Hc & _ & _).
  destruct (transfer_funds_page_store env s f) as [-> | (rate & a & b & Htry)].
  - by split.
  - apply transfer_try_ok in Htry as (o & i & c & _ & _ & _ & ->). by split.
Qed.

(** ** No row links to a transfer *)

Lemma no_transfer_id_update_type (old new : string) (rows : list TransactionRow) :
  no_transfer_id rows -> no_transfer_id (update_type old new rows).
Proof.
  unfold no_transfer_id, update_type. intros Hrows. apply Forall_map.
  eapply Forall_impl; [exact Hrows|]. intros r Hr. simpl.
  destruct (bool_decide _); exact Hr.
Qed.

Lemma no_transfer_id_fix_enum_data (s : Store) :
  no_transfer_id (transactions s) -> no_transfer_id (transactions (fix_enum_data s)).
Proof.
  intros Hs. unfold fix_enum_data. destruct (filter _ _); [exact Hs|].
  simpl. by do 2 apply no_transfer_id_update_type.
Qed.

Lemma no_transfer_id_void (s : Store) (i : Z) :
  no_transfer_id (transactions s) ->
  no_transfer_id (transactions (fst (void_transaction s i))).
Proof.
  intros Hs. unfold void_transaction. destruct (find _ _); [|exact Hs].
  destruct (load _); [|exact Hs]. simpl. apply Forall_map.
  eapply Forall_impl; [exact Hs|]. intros r Hr. simpl.
  destruct (bool_decide _); exact Hr.
Qed.

Lemma no_transfer_id_add (s : Store) (f : AddForm.t) :
  no_transfer_id (transactions s) ->
  no_transfer_id (transactions (fst (add_transaction_page s f))).
Proof.
  intros Hs. unfold add_transaction_page, add_transaction_try.
  destruct (AddForm.submitted f); [|exact Hs].
  destruct (subscript _ (AddForm.account_name f)); [|exact Hs].
  destruct (subscript _ (AddForm.category_name f)); [|exact Hs].
  simpl. apply Forall_app. split; [exact Hs|]. by constructor.
Qed.

Lemma no_transfer_id_transfer (env : Env) (s : Store) (f : TransferForm.t) :
  no_transfer_id (transactions s) ->
  no_transfer_id (transactions (fst (transfer_funds_page env s f))).
Proof.
  intros Hs.
  destruct (transfer_all_or_nothing env s f) as [-> | (r & c & a & b & o & i & ->)];
    [exact Hs|].
  apply Forall_app. split; [exact Hs|]. by repeat constructor.
Qed.

Section Invariants.
Context `{CryptoLib}.

Lemma no_transfer_id_script_run (env : Env) (a : Action) (s : Store) :
  no_transfer_id (transactions s) -> no_transfer_id (transactions (script_run env a s)).
Proof.
  intros Hs.
  assert (Hinit : no_transfer_id (transactions (init_db env s))).
  { destruct (init_db_transactions env s) as [-> _]. by apply no_transfer_id_fix_enum_data. }
  unfold script_run. destruct a as [| |i|f|f].
  - exact Hinit.
  - destruct (get_account_balance _ 1); [|exact Hinit].
    destruct (get_account_balance _ 2); [|exact Hinit].
    destruct (get_latest_tables env (init_db env s)) as (_ & _ & _ & ->). exact Hinit.
  - by apply no_transfer_id_void.
  - by apply no_transfer_id_add.
  - by apply no_transfer_id_transfer.
Qed.

(** C7: in every store the application reaches from an empty database no
    transaction has a [transfer_id]; a transfer in particular adds rows
    without one. *)
Theorem transfer_id_never_populated (s : Store) :
  reachable s ->
  no_transfer_id (transactions s)
  /\ forall env f r,
       r ∈ transactions (fst (transfer_funds_page env (init_db env s) f)) ->
       Transaction.transfer_id r = None.
Proof.
  intros Hs.
  assert (Hno : no_transfer_id (transactions s)).
  { induction Hs as [|env a s Hs IH]; [constructor|].
    by apply no_transfer_id_script_run. }
  split; [exact Hno|]. intros env f r Hr.
  pose proof (no_transfer_id_script_run env (TransferFunds f) s Hno) as Hrun.
  unfold no_transfer_id in Hrun. rewrite Forall_forall in Hrun. apply Hrun, Hr.
Qed.
End Invariants.

Lemma transfer_id_never_populated_witness :
  let s := @script_run sample_crypto sample_env (TransferFunds usd_to_inr_form) empty_store in
  @reachable sample_crypto s
  /\ length (transactions s) = 2%nat
  /\ no_transfer_id (transactions s)
  /\ forall env f r,
       r ∈ transactions (fst (transfer_funds_page env (@init_db sample_crypto env s) f)) ->
       Transaction.transfer_id r = None.
Proof.
  intros s.
  assert (Hs : @reachable sample_crypto s) by apply reachable_run, reachable_empty.
  split; [exact Hs|]. split; [vm_compute; reflexivity|].
  exact (@transfer_id_never_populated sample_crypto s Hs).
Defined.

(** ** The seed rows stay as they are *)

Lemma seeded_accounts_dict (s : Store) :
  accounts s = seed_accounts ->
  get_all_accounts s !! "US Business Account (USD)" = Some 1
  /\ get_all_accounts s !! "India Business Account (INR)" = Some 2.
Proof.
  intros Hs. unfold get_all_accounts. rewrite Hs. split; vm_compute; reflexivity.
Qed.

Lemma seeded_categories_dict (s : Store) :
  categories s = seed_categories ->
  get_all_categories s !! "Inter-Account Transfer Out" = Some 8
  /\ get_all_categories s !! "Inter-Account Transfer In" = Some 7.
Proof.
  intros Hs. unfold get_all_categories. rewrite Hs. split; vm_compute; reflexivity.
Qed.

Section Seeded.
Context `{CryptoLib}.

Lemma init_db_seeded (env : Env) (s : Store) :
  blank_or_seeded s -> seeded_tables (init_db env s).
Proof.
  destruct (fix_enum_data_tables s) as (Ha & Hc & _ & _).
  unfold seeded_tables, init_db, account_by_currency, category_by_name. simpl.
  rewrite Ha, Hc. intros [[-> ->] | [-> ->]]; split; vm_compute; reflexivity.
Qed.

Lemma script_run_tables (env : Env) (a : Action) (s : Store) :
  accounts (script_run env a s) = accounts (init_db env s)
  /\ categories (script_run env a s) = categories (init_db env s).
Proof.
  unfold script_run. destruct a as [| |i|f|f].
  - by split.
  - destruct (get_account_balance _ 1); [|by split].
    destruct (get_account_balance _ 2); [|by split].
    destruct (get_latest_tables env (init_db env s)) as (Ha & Hc & _ & _). by split.
  - unfold void_transaction. destruct (find _ _); [|by split].
    destruct (load _); by split.
  - unfold add_transaction_page, add_transaction_try.
    destruct (AddForm.submitted f); [|by split].
    destruct (subscript _ (AddForm.account_name f)); [|by split].
    destruct (subscript _ (AddForm.category_name f)); by split.
  - apply transfer_funds_page_tables.
Qed.

Lemma reachable_blank_or_seeded (s : Store) : reachable s -> blank_or_seeded s.
Proof.
  induction 1 as [|env a s Hs IH]; [by left|]. right.
  destruct (script_run_tables env a s) as (Ha & Hc).
  destruct (init_db_seeded env s IH) as (Ha' & Hc').
  split; congruence.
Qed.
End Seeded.

(** ** A transfer writes its two rows *)

Lemma py_div_ok (a b : Q) : ~ (b == 0)%Q -> py_div a b = Ok (a / b)%Q.
Proof.
  intros Hb. unfold py_div. destruct (Qeq_bool b 0) eqn:E; [|reflexivity].
  apply Qeq_bool_iff in E. contradiction.
Qed.

Lemma transfer_preview_returns (rate : Q) (f : TransferForm.t) :
  ~ (rate == 0)%Q -> exists estimate, transfer_preview rate f = Ok estimate.
Proof.
  intros Hrate. unfold transfer_preview. destruct (_ && _); [eauto|].
  destruct (_ && _); [|eauto]. rewrite py_div_ok by exact Hrate. simpl. eauto.
Qed.

(** The page on a submitted form with two different listed accounts, both
    transfer categories and a rate that is not zero. *)
Lemma transfer_funds_page_success (env : Env) (s0 : Store) (f : TransferForm.t)
    (rate converted : Q) (a b out_id in_id : Z) :
  snd (fst (get_latest_exchange_rate env s0)) = Ok rate ->
  ~ (rate == 0)%Q ->
  TransferForm.from_account_name f <> TransferForm.to_account_name f ->
  TransferForm.submitted f = true ->
  get_all_accounts s0 !! TransferForm.from_account_name f = Some a ->
  get_all_accounts s0 !! TransferForm.to_account_name f = Some b ->
  get_all_categories s0 !! "Inter-Account Transfer Out" = Some out_id ->
  get_all_categories s0 !! "Inter-Account Transfer In" = Some in_id ->
  (if contains "USD" (TransferForm.from_account_name f)
   then Ok (TransferForm.amount f * rate)%Q
   else py_div (TransferForm.amount f) rate) = Ok converted ->
  transactions (fst (transfer_funds_page env s0 f))
  = (transactions s0 ++ transfer_rows (transactions s0) f rate converted a b out_id in_id)%list
  /\ last (snd (transfer_funds_page env s0 f))
     = Some (st_success "Funds transferred successfully!").
Proof.
  intros Hrate Hnz Hne Hsub Ha Hb Hout Hin Hconv.
  destruct (get_latest_tables env s0) as (_ & Hc & _ & Ht).
  destruct (transfer_preview_returns rate f Hnz) as [estimate Hest].
  unfold transfer_funds_page.
  destruct (get_latest_exchange_rate env s0) as [[s r] shown]. simpl in *. subst r.
  rewrite bool_decide_eq_true_2 by exact Hne. unfold subscript.
  rewrite Ha, Hb, Hest, Hsub.
  rewrite (transfer_try_success s rate f a b out_id in_id converted).
  - simpl. rewrite Ht. split; [reflexivity|].
    change [estimate; st_success "Funds transferred successfully!"]
      with ([estimate] ++ [st_success "Funds transferred successfully!"])%list.
    rewrite app_assoc. apply last_snoc.
  - unfold subscript, get_all_categories. rewrite Hc.
    unfold get_all_categories in Hout. rewrite Hout. reflexivity.
  - unfold subscript, get_all_categories. rewrite Hc.
    unfold get_all_categories in Hin. rewrite Hin. reflexivity.
  - exact Hconv.
Qed.

Section Transfers.
Context `{CryptoLib}.

(** C2: in a run of the application (from any reachable store), a submitted
    transfer between two different accounts, at a rate that is not zero,
    appends exactly two rows: the withdrawal, an EXPENSE of the amount on the
    source account in category "Inter-Account Transfer Out", and the deposit,
    an INCOME on the target account in category "Inter-Account Transfer In"
    whose amount is amount * rate from a USD account and amount / rate from
    an INR account; both carry the rate the page has read.  And whatever the
    input, the page appends these two rows or none. *)
Theorem transfer_creates_two_legs (env : Env) (s0 : Store) (f : TransferForm.t)
    (from_account to_account : Account.t) (rate : Q) :
  reachable s0 ->
  let s1 := init_db env s0 in
  from_account ∈ accounts s1 ->
  to_account ∈ accounts s1 ->
  from_account <> to_account ->
  TransferForm.from_account_name f = account_label from_account ->
  TransferForm.to_account_name f = account_label to_account ->
  TransferForm.submitted f = true ->
  snd (fst (get_latest_exchange_rate env s1)) = Ok rate ->
  ~ (rate == 0)%Q ->
  (exists out_id in_id converted,
     Category.mk out_id "Inter-Account Transfer Out" ∈ categories s1
     /\ Category.mk in_id "Inter-Account Transfer In" ∈ categories s1
     /\ (Account.currency_code from_account = "USD" ->
         converted = (TransferForm.amount f * rate)%Q)
     /\ (Account.currency_code from_account = "INR" ->
         converted = (TransferForm.amount f / rate)%Q)
     /\ transactions (script_run env (TransferFunds f) s0)
        = (transactions s1
           ++ transfer_rows (transactions s1) f rate converted
                (Account.id from_account) (Account.id to_account) out_id in_id)%list
     /\ last (snd (transfer_funds_page env s1 f))
        = Some (st_success "Funds transferred successfully!"))
  /\ (forall env' s' f',
        let rows := transactions s' in
        let rows' := transactions (fst (transfer_funds_page env' s' f')) in
        rows' = rows
        \/ exists rate' converted' a b out_id in_id,
             rows' = (rows ++ transfer_rows rows f' rate' converted' a b out_id in_id)%list).
Proof.
  intros Hreach s1 Hfrom Hto Hne Hfn Htn Hsub Hrate Hnz.
  split; [|intros env' s' f'; apply transfer_all_or_nothing].
  destruct (init_db_seeded env s0 (reachable_blank_or_seeded s0 Hreach)) as (Ha & Hc).
  fold s1 in Ha, Hc. rewrite Ha in Hfrom, Hto.
  destruct (seeded_accounts_dict s1 Ha) as (Husd & Hinr).
  destruct (seeded_categories_dict s1 Hc) as (Hout & Hin).
  assert (Hmem_out : Category.mk 8 "Inter-Account Transfer Out" ∈ categories s1).
  { rewrite Hc. unfold seed_categories.
    repeat first [apply list_elem_of_here | apply list_elem_of_further]. }
  assert (Hmem_in : Category.mk 7 "Inter-Account Transfer In" ∈ categories s1).
  { rewrite Hc. unfold seed_categories.
    repeat first [apply list_elem_of_here | apply list_elem_of_further]. }
  assert (Lusd : account_label (Account.mk 1 "US Business Account" "USD")
                 = "US Business Account (USD)") by reflexivity.
  assert (Linr : account_label (Account.mk 2 "India Business Account" "INR")
                 = "India Business Account (INR)") by reflexivity.
  assert (Cusd : contains "USD" "US Business Account (USD)" = true)
    by (vm_compute; reflexivity).
  assert (Cinr : contains "USD" "India Business Account (INR)" = false)
    by (vm_compute; reflexivity).
  unfold seed_accounts in Hfrom, Hto.
  apply elem_of_cons in Hfrom as [-> | Hfrom];
    [|apply list_elem_of_singleton in Hfrom as ->];
    (apply elem_of_cons in Hto as [-> | Hto];
     [|apply list_elem_of_singleton in Hto as ->]);
    try (exfalso; apply Hne; reflexivity);
    rewrite ?Lusd, ?Linr in Hfn, Htn.
  - exists 8, 7, (TransferForm.amount f * rate)%Q.
    split; [exact Hmem_out|]. split; [exact Hmem_in|].
    split; [reflexivity|]. split; [intros E; discriminate E|].
    apply transfer_funds_page_success; rewrite ?Hfn, ?Htn, ?Cusd;
      first [assumption | reflexivity | intros E; discriminate E].
  - exists 8, 7, (TransferForm.amount f / rate)%Q.
    split; [exact Hmem_out|]. split; [exact Hmem_in|].
    split; [intros E; discriminate E|]. split; [reflexivity|].
    apply transfer_funds_page_success; rewrite ?Hfn, ?Htn, ?Cinr;
      first [assumption | reflexivity | intros E; discriminate E
            | by apply py_div_ok].
Qed.
End Transfers.

Lemma transfer_creates_two_legs_witness :
  let s1 := @init_db sample_crypto sample_env empty_store in
  (exists out_id in_id converted,
     Category.mk out_id "Inter-Account Transfer Out" ∈ categories s1
     /\ Category.mk in_id "Inter-Account Transfer In" ∈ categories s1
     /\ ("USD" = "USD" -> converted = (TransferForm.amount usd_to_inr_form * (167 # 2))%Q)
     /\ ("USD" = "INR" -> converted = (TransferForm.amount usd_to_inr_form / (167 # 2))%Q)
     /\ transactions (@script_run sample_crypto sample_env (TransferFunds usd_to_inr_form)
                                  empty_store)
        = (transactions s1
           ++ transfer_rows (transactions s1) usd_to_inr_form (167 # 2) converted
                1 2 out_id in_id)%list
     /\ last (snd (transfer_funds_page sample_env s1 usd_to_inr_form))
        = Some (st_success "Funds transferred successfully!"))
  /\ (forall env' s' f',
        let rows := transactions s' in
        let rows' := transactions (fst (transfer_funds_page env' s' f')) in
        rows' = rows
        \/ exists rate' converted' a b out_id in_id,
             rows' = (rows ++ transfer_rows rows f' rate' converted' a b out_id in_id)%list).
Proof.
  apply (@transfer_creates_two_legs sample_crypto sample_env empty_store usd_to_inr_form
           (Account.mk 1 "US Business Account" "USD")
           (Account.mk 2 "India Business Account" "INR") (167 # 2)).
  - apply reachable_empty.
  - vm_compute. apply list_elem_of_here.
  - vm_compute. apply list_elem_of_further, list_elem_of_here.
  - intros E. discriminate E.
  - vm_compute. reflexivity.
  - vm_compute. reflexivity.
  - reflexivity.
  - vm_compute. reflexivity.
  - intros E. vm_compute in E. discriminate E.
Defined.

(** The example of the specification: 100 from the USD account to the INR
    account at 83.5 writes a withdrawal of 100 and a deposit of 8350. *)
Lemma transfer_usd_to_inr_rows :
  exists w d,
    transactions (@script_run sample_crypto sample_env (TransferFunds usd_to_inr_form)
                              empty_store) = [w; d]
    /\ w = withdrawal_row 1 usd_to_inr_form (167 # 2) 1 8
    /\ d = deposit_row 2 usd_to_inr_form (167 # 2) (100 * (167 # 2)) 2 7
    /\ (Transaction.amount w == 100)%Q
    /\ (Transaction.amount d == 8350)%Q
    /\ (167 # 2 == 83.5)%Q.
Proof.
  eexists _, _. split; [vm_compute; reflexivity|].
  repeat split; vm_compute; reflexivity.
Qed.

(** ** Monthly totals *)

Lemma group_total_cons (m0 t0 : string) (total : Q) (groups : list group_row)
    (month type : string) :
  group_total ((m0, t0, total) :: groups) month type
  = if bool_decide (m0 = month /\ t0 = type) then total else group_total groups month type.
Proof. unfold group_total. simpl. destruct (bool_decide _); reflexivity. Qed.

Lemma add_to_group_total (m' t' : string) (a : Q) (groups : list group_row)
    (month type : string) :
  (group_total (add_to_group m' t' a groups) month type
   == group_total groups month type
      + (if bool_decide (m' = month /\ t' = type) then a else 0))%Q.
Proof.
  induction groups as [|[[m0 t0] total] groups IH]; simpl.
  - rewrite group_total_cons. unfold group_total. simpl.
    destruct (bool_decide _); ring.
  - destruct (bool_decide (m0 = m' /\ t0 = t')) eqn:E.
    + apply bool_decide_eq_true in E as [-> ->]. rewrite !group_total_cons.
      destruct (bool_decide (m' = month /\ t' = type)); ring.
    + apply bool_decide_eq_false in E. rewrite !group_total_cons.
      destruct (bool_decide (m0 = month /\ t0 = type)) eqn:E0.
      * apply bool_decide_eq_true in E0 as [-> ->].
        rewrite bool_decide_eq_false_2; [ring|]. intros [-> ->]. by apply E.
      * exact IH.
Qed.

Lemma month_total_cons (start_date : Date) (r : TransactionRow) (rows : list TransactionRow)
    (month type : string) :
  month_total start_date (r :: rows) month type
  = if date_geb (Transaction.date r) start_date && negb (Transaction.is_void r)
       && bool_decide (strftime_Y_m (Transaction.date r) = month /\ Transaction.type r = type)
    then (Transaction.amount r + month_total start_date rows month type)%Q
    else month_total start_date rows month type.
Proof.
  unfold month_total. rewrite filter_cons.
  destruct (decide _) as [(-> & -> & Hkey) | Hno]; simpl.
  - rewrite bool_decide_eq_true_2 by exact Hkey. reflexivity.
  - destruct (date_geb _ _) eqn:E1; [|reflexivity].
    destruct (Transaction.is_void r) eqn:E2; [reflexivity|]. simpl.
    rewrite bool_decide_eq_false_2; [reflexivity|]. intros [? ?]. by apply Hno.
Qed.

Lemma monthly_query_totals_from (start_date : Date) (rows : list TransactionRow)
    (groups : list group_row) (month type : string) :
  (group_total
     (fold_left
        (fun groups r =>
           if date_geb (Transaction.date r) start_date && negb (Transaction.is_void r)
           then add_to_group (strftime_Y_m (Transaction.date r)) (Transaction.type r)
                             (Transaction.amount r) groups
           else groups)
        rows groups) month type
   == group_total groups month type + month_total start_date rows month type)%Q.
Proof.
  revert groups. induction rows as [|r rows IH]; intros groups.
  - simpl. unfold month_total. simpl. ring.
  - simpl. rewrite IH, month_total_cons.
    destruct (date_geb _ _ && negb _); simpl; [|reflexivity].
    rewrite add_to_group_total. destruct (bool_decide _); ring.
Qed.

(** For every table, window, month and type, the grouped query lists the sum of
    the amounts of the non-void rows of that month and type in the window. *)
Lemma monthly_query_totals (start_date : Date) (rows : list TransactionRow)
    (month type : string) :
  (group_total (monthly_query start_date rows) month type
   == month_total start_date rows month type)%Q.
Proof.
  unfold monthly_query. rewrite monthly_query_totals_from.
  unfold group_total. simpl. ring.
Qed.

(** C6 (monthly totals per month and type, in an income and an expense
    column).  For the three example transactions, all inside the window of a
    run on 2024-02-15, the stated totals are 500 for the income of January and
    100 for the expense of February, and the grouped query computes them.  But
    the pivot labels its columns with the enum members, so that the test
    [t not in df_pivot.columns] on the members' values never finds a column:
    the frame gets two more columns 'income' and 'expense', the ones
    [dashboard_page] plots, and these read 0 in both rows, where the stated
    values are 500 and 100.  The defect is one of its own, of the kind of the
    one of [balance]: a member is taken for its value. *)
Theorem monthly_frame_value_columns_zero :
  let start_date := minus_days (today sample_env) (30 * 6) in
  let rows := transactions monthly_example in
  Forall (fun r => date_geb (Transaction.date r) start_date = true) rows
  /\ (month_total start_date rows "2024-01" (name INCOME) == 500)%Q
  /\ (month_total start_date rows "2024-02" (name EXPENSE) == 100)%Q
  /\ exists df,
       get_profit_loss_data sample_env 6 monthly_example = Ok df
       /\ df_index df = ["2024-01"; "2024-02"]
       /\ df_columns df = [PyEnum INCOME; PyEnum EXPENSE;
                           PyStr (value INCOME); PyStr (value EXPENSE)]
       /\ df_loc df "2024-01" (PyStr (value INCOME)) = Some 0%Q
       /\ df_loc df "2024-01" (PyStr (value EXPENSE)) = Some 0%Q
       /\ df_loc df "2024-02" (PyStr (value INCOME)) = Some 0%Q
       /\ df_loc df "2024-02" (PyStr (value EXPENSE)) = Some 0%Q
       /\ df_getitem df (PyStr (value INCOME)) = Some [0%Q; 0%Q]
       /\ df_getitem df (PyStr (value EXPENSE)) = Some [0%Q; 0%Q]
       /\ df_loc df "2024-01" (PyEnum INCOME) = Some 500%Q
       /\ df_loc df "2024-02" (PyEnum EXPENSE) = Some 100%Q.
Proof.
  intros start_date rows.
  split; [repeat constructor|].
  split; [vm_compute; reflexivity|]. split; [vm_compute; reflexivity|].
  exists (mkDataFrame ["2024-01"; "2024-02"]
            [PyEnum INCOME; PyEnum EXPENSE; PyStr "income"; PyStr "expense"]
            [[500%Q; 0%Q; 0%Q; 0%Q]; [0%Q; 100%Q; 0%Q; 0%Q]]).
  repeat split; vm_compute; reflexivity.
Qed.

(** The window of the query: on 2026-11-04 the three transactions of the
    example lie before the last six times thirty days, and the frame has no
    row at all. *)
Lemma monthly_totals_outside_window :
  get_profit_loss_data late_env 6 monthly_example
  = Ok (mkDataFrame [] [PyStr "month"; PyStr "income"; PyStr "expense"] [])
  /\ (forall df, get_profit_loss_data late_env 6 monthly_example = Ok df ->
                 df_loc df "2024-01" (PyEnum INCOME) <> Some 500%Q).
Proof.
  assert (E : get_profit_loss_data late_env 6 monthly_example
              = Ok (mkDataFrame [] [PyStr "month"; PyStr "income"; PyStr "expense"] []))
    by (vm_compute; reflexivity).
  split; [exact E|]. intros df Hdf. rewrite E in Hdf. injection Hdf as <-.
  vm_compute. discriminate.
Qed.

(** * Further properties of the code *)

(** ** The balance as the code computes it *)

Lemma load_fields (row : TransactionRow) (t : LoadedTransaction) :
  load row = Ok t ->
  Transaction.is_void t = Transaction.is_void row
  /\ Transaction.amount t = Transaction.amount row.
Proof.
  unfold load. destruct (enum_result (Transaction.type row)); simpl; [|discriminate].
  intros [= <-]. by split.
Qed.

Lemma mapM_load_cons (row : TransactionRow) (rows : list TransactionRow)
    (txs : list LoadedTransaction) :
  mapM load (row :: rows) = Ok txs ->
  exists t txs', load row = Ok t /\ mapM load rows = Ok txs' /\ txs = t :: txs'.
Proof.
  simpl. destruct (load row) as [t|e]; simpl; [|discriminate].
  destruct (mapM load rows) as [txs'|e]; simpl; [|discriminate].
  intros [= <-]. eauto.
Qed.

Lemma loaded_total (rows : list TransactionRow) (txs : list LoadedTransaction) :
  mapM load rows = Ok txs ->
  sum_amounts (filter (fun t => Transaction.is_void t = false) txs)
  = total_amount (filter (fun r => Transaction.is_void r = false) rows).
Proof.
  revert txs. induction rows as [|row rows IH]; intros txs Hload.
  - simpl in Hload. injection Hload as <-. reflexivity.
  - apply mapM_load_cons in Hload as (t & txs' & Ht & Htxs & ->).
    destruct (load_fields _ _ Ht) as (Hv & Ha). rewrite !filter_cons, Hv.
    destruct (decide (Transaction.is_void row = false)); simpl.
    + rewrite Ha. f_equal. by apply IH.
    + by apply IH.
Qed.

(** X1: for an account that exists, [get_account_balance] returns minus the sum
    of the amounts of all its non-void transactions, incomes as well as
    expenses. *)
Theorem account_balance_subtracts_all (s : Store) (account_id : Z) (account : Account.t)
    (q : Q) :
  find (fun a => bool_decide (Account.id a = account_id)) (accounts s) = Some account ->
  get_account_balance s account_id = Ok q ->
  (q == - total_amount
           (filter (fun r => Transaction.is_void r = false)
              (filter (fun r => Transaction.account_id r = Account.id account)
                      (transactions s))))%Q.
Proof.
  intros Hfind. unfold get_account_balance, account_transactions. rewrite Hfind.
  destruct (mapM load _) as [txs|e] eqn:Hload; simpl; [|discriminate].
  intros [= <-]. rewrite balance_subtracts_everything.
  rewrite (loaded_total _ _ Hload). reflexivity.
Qed.

Lemma account_balance_subtracts_all_witness :
  ((-100) == - total_amount
           (filter (fun r => Transaction.is_void r = false)
              (filter (fun r => Transaction.account_id r
                                = Account.id (Account.mk 1 "US Business Account" "USD"))
                      (transactions one_income_store))))%Q.
Proof.
  apply (account_balance_subtracts_all one_income_store 1
           (Account.mk 1 "US Business Account" "USD") (-100)%Q);
    vm_compute; reflexivity.
Defined.

(** ** [fix_enum_data] *)

Lemma normalise_type_fixed (r : TransactionRow) :
  Transaction.type r <> "income" -> Transaction.type r <> "expense" -> normalise_type r = r.
Proof.
  intros H1 H2. unfold normalise_type.
  rewrite !bool_decide_eq_false_2 by assumption. reflexivity.
Qed.

Lemma filter_nil_not {A} (P : A -> Prop) `{forall x, Decision (P x)} (l : list A) :
  filter P l = [] -> forall x, x ∈ l -> ~ P x.
Proof.
  intros Hl x Hx HP.
  assert (Hin : x ∈ filter P l) by (apply list_elem_of_filter; by split).
  rewrite Hl in Hin. inversion Hin.
Qed.

Lemma update_type_normalise (rows : list TransactionRow) :
  update_type "expense" "EXPENSE" (update_type "income" "INCOME" rows)
  = map normalise_type rows.
Proof.
  unfold update_type. rewrite map_map. apply map_ext. intros r. unfold normalise_type.
  destruct (bool_decide (Transaction.type r = "income")) eqn:E1; simpl.
  - reflexivity.
  - reflexivity.
Qed.

Lemma fix_enum_data_rows (s : Store) :
  transactions (fix_enum_data s) = map normalise_type (transactions s).
Proof.
  unfold fix_enum_data. destruct (filter _ (transactions s)) eqn:E.
  - symmetry. rewrite <- (map_id (transactions s)) at 2. apply map_ext_in.
    intros r Hr. apply list_elem_of_In in Hr.
    pose proof (filter_nil_not _ _ E r Hr) as Hno.
    apply normalise_type_fixed; intros Ht; apply Hno; [by left|by right].
  - simpl. apply update_type_normalise.
Qed.

(** X2: [fix_enum_data] rewrites the type 'income' to 'INCOME' and 'expense' to
    'EXPENSE' in every transaction and changes nothing else; afterwards no
    transaction has a lowercase type, every other table is as before, and a
    second call changes nothing. *)
Theorem fix_enum_data_normalises (s : Store) :
  transactions (fix_enum_data s) = map normalise_type (transactions s)
  /\ (forall r, r ∈ transactions (fix_enum_data s) ->
                Transaction.type r <> "income" /\ Transaction.type r <> "expense")
  /\ accounts (fix_enum_data s) = accounts s
  /\ categories (fix_enum_data s) = categories s
  /\ users (fix_enum_data s) = users s
  /\ exchange_rates (fix_enum_data s) = exchange_rates s
  /\ fix_enum_data (fix_enum_data s) = fix_enum_data s.
Proof.
  split; [apply fix_enum_data_rows|].
  split; [|split; [|split; [|split; [|split]]]];
    try apply fix_enum_data_tables; [|apply fix_enum_data_twice].
  intros r Hr. pose proof (filter_nil_not _ _ (fix_enum_data_fixed s) r Hr) as Hno.
  split; intros Ht; apply Hno; [by left|by right].
Qed.

(** ** Voiding is a soft delete *)

Lemma void_transaction_tables (s : Store) (i : Z) :
  let s' := fst (void_transaction s i) in
  accounts s' = accounts s /\ categories s' = categories s
  /\ users s' = users s /\ exchange_rates s' = exchange_rates s
  /\ map (fun r => Transaction.with_is_void r false) (transactions s')
     = map (fun r => Transaction.with_is_void r false) (transactions s)
  /\ map Transaction.id (transactions s') = map Transaction.id (transactions s).
Proof.
  unfold void_transaction. destruct (find _ _); [|by repeat split].
  destruct (load _); [|by repeat split]. simpl.
  repeat split; rewrite map_map; apply map_ext; intros r;
    destruct (bool_decide _); reflexivity.
Qed.

(** X3: [void_transaction] is a soft delete.  It removes no row and changes no
    attribute other than [is_void], leaves the other tables alone, reports
    "Transaction not found." and changes nothing when no transaction has the
    id, and voiding the same id again leaves the store as it is. *)
Theorem void_transaction_soft_delete (s : Store) (i : Z) :
  let s' := fst (void_transaction s i) in
  map (fun r => Transaction.with_is_void r false) (transactions s')
  = map (fun r => Transaction.with_is_void r false) (transactions s)
  /\ accounts s' = accounts s /\ categories s' = categories s
  /\ users s' = users s /\ exchange_rates s' = exchange_rates s
  /\ (snd (void_transaction s i) = [st_success "Transaction voided successfully."] ->
      forall r, r ∈ transactions s' -> Transaction.id r = i -> Transaction.is_void r = true)
  /\ ((forall r, r ∈ transactions s -> Transaction.id r <> i) ->
      void_transaction s i = (s, [st_error "Transaction not found."]))
  /\ fst (void_transaction s' i) = s'.
Proof.
  intros s'. destruct (void_transaction_tables s i) as (Ha & Hc & Hu & He & Hrows & _).
  repeat split; try assumption; [| |apply void_transaction_twice].
  - subst s'. unfold void_transaction.
    destruct (find _ _) as [row|] eqn:Hf; [|discriminate].
    destruct (load row) as [t|e] eqn:Hl; [|discriminate]. simpl. intros _ r Hr Hid.
    apply list_elem_of_fmap in Hr as (r0 & -> & _).
    rewrite (load_id _ _ Hl), (find_some_key _ _ _ Hf) in Hid |- *.
    destruct (bool_decide (Transaction.id r0 = i)) eqn:E; [reflexivity|].
    apply bool_decide_eq_false in E. contradiction.
  - intros Hno. unfold void_transaction.
    destruct (find _ _) as [row|] eqn:Hf; [|reflexivity].
    apply find_some in Hf as [Hin Hid]. apply bool_decide_eq_true in Hid.
    apply list_elem_of_In in Hin. destruct (Hno row Hin Hid).
Qed.

(** ** [init_db] on any store *)

Lemma insert_account_prefix (new : list (string * string)) (rows : list Account.t) :
  rows `prefix_of` fold_left insert_account new rows.
Proof.
  revert rows. induction new as [|x new IH]; intros rows; simpl; [reflexivity|].
  etransitivity; [|apply IH]. unfold insert_account. by apply prefix_app_r.
Qed.

Lemma insert_category_prefix (new : list string) (rows : list Category.t) :
  rows `prefix_of` fold_left insert_category new rows.
Proof.
  revert rows. induction new as [|x new IH]; intros rows; simpl; [reflexivity|].
  etransitivity; [|apply IH]. unfold insert_category. by apply prefix_app_r.
Qed.

Lemma insert_user_prefix (new : list (string * string * string)) (rows : list User.t) :
  rows `prefix_of` fold_left insert_user new rows.
Proof.
  revert rows. induction new as [|x new IH]; intros rows; simpl; [reflexivity|].
  etransitivity; [|apply IH]. unfold insert_user. by apply prefix_app_r.
Qed.

Section InitDbAnyStore.
Context `{CryptoLib}.

(** X4: [init_db] only appends.  On any store, the accounts, categories and
    users that exist stay as they are, in place (a stored password hash is
    never overwritten); the exchange rates are untouched; of the transactions
    only a lowercase type is rewritten. *)
Theorem init_db_only_appends (env : Env) (s : Store) :
  accounts s `prefix_of` accounts (init_db env s)
  /\ categories s `prefix_of` categories (init_db env s)
  /\ users s `prefix_of` users (init_db env s)
  /\ exchange_rates (init_db env s) = exchange_rates s
  /\ transactions (init_db env s) = map normalise_type (transactions s).
Proof.
  destruct (fix_enum_data_tables s) as (Ha & Hc & Hu & He).
  unfold init_db. simpl. rewrite Ha, Hc, Hu.
  split; [apply insert_account_prefix|]. split; [apply insert_category_prefix|].
  split; [apply insert_user_prefix|]. split; [exact He|apply fix_enum_data_rows].
Qed.

(** X5: after [init_db], whatever the store was, an account of each currency,
    every default category and both users exist, and running [init_db] again
    (with other salts, on another day) changes nothing. *)
Theorem init_db_completes_seed (env env' : Env) (s : Store) :
  is_Some (account_by_currency (init_db env s) "USD")
  /\ is_Some (account_by_currency (init_db env s) "INR")
  /\ (forall n, n ∈ default_categories -> is_Some (category_by_name (init_db env s) n))
  /\ is_Some (user_by_username (init_db env s) "admin")
  /\ is_Some (user_by_username (init_db env s) "viewer")
  /\ init_db env' (init_db env s) = init_db env s.
Proof.
  split; [apply init_db_has_account; by left|].
  split; [apply init_db_has_account; by right|].
  split; [apply init_db_has_category|].
  split; [apply init_db_has_user; by left|].
  split; [apply init_db_has_user; by right|].
  apply init_db_idempotent.
Qed.

(** ** Passwords and login *)

Lemma verify_hash_password (password : string) (salt : list Byte.byte) :
  length salt = 16%nat ->
  b64decode (hash_password password salt) = Ok (salt ++ pbkdf2 salt (encode password))%list ->
  verify_password (hash_password password salt) password = Ok true.
Proof.
  intros Hlen Hdec. unfold verify_password, verify_password_try. rewrite Hdec. simpl.
  rewrite <- Hlen, take_app_length, drop_app_length.
  rewrite bool_decide_eq_true_2 by reflexivity. reflexivity.
Qed.

(** X6: a password verifies against its own hash.  For a salt of 16 bytes (as
    [generate_salt] makes it), when base64 decodes the stored string back to
    the bytes that were encoded, [verify_password (hash_password p salt) p] is
    [True]. *)
Theorem hash_then_verify (password : string) (salt : list Byte.byte) :
  length salt = 16%nat ->
  b64decode (hash_password password salt) = Ok (salt ++ pbkdf2 salt (encode password))%list ->
  verify_password (hash_password password salt) password = Ok true
  /\ verify_password_try (hash_password password salt) password = Ok true.
Proof.
  intros Hlen Hdec. split; [by apply verify_hash_password|].
  pose proof (verify_hash_password password salt Hlen Hdec) as Hv.
  unfold verify_password in Hv. destruct (verify_password_try _ _) as [b|e]; [exact Hv|].
  discriminate Hv.
Qed.

Lemma init_db_fresh_users (env : Env) (s : Store) :
  users s = [] ->
  users (init_db env s)
  = [ User.mk 1 "admin" (hash_password "admin123" (admin_salt env)) "admin";
      User.mk 2 "viewer" (hash_password "view123" (viewer_salt env)) "viewer" ].
Proof.
  intros Hs. destruct (fix_enum_data_tables s) as (_ & _ & Hu & _).
  unfold init_db, user_by_username. simpl. rewrite Hu, Hs. reflexivity.
Qed.

(** X7: on a database without users, [init_db] creates the two users so that
    they can log in: "admin" with "admin123" gets the role admin and "viewer"
    with "view123" the role viewer (salts of 16 bytes, base64 decoding its own
    encoding). *)
Theorem seeded_users_can_log_in (env : Env) (s : Store) (st : Session.t) :
  users s = [] ->
  length (admin_salt env) = 16%nat ->
  length (viewer_salt env) = 16%nat ->
  b64decode (hash_password "admin123" (admin_salt env))
  = Ok (admin_salt env ++ pbkdf2 (admin_salt env) (encode "admin123"))%list ->
  b64decode (hash_password "view123" (viewer_salt env))
  = Ok (viewer_salt env ++ pbkdf2 (viewer_salt env) (encode "view123"))%list ->
  login_page (init_db env s) st "admin" "admin123" true
  = (Session.mk true (Some "admin") (Some "admin") (Some 1) true,
     [st_success "Login successful!"])
  /\ login_page (init_db env s) st "viewer" "view123" true
     = (Session.mk true (Some "viewer") (Some "viewer") (Some 2) true,
        [st_success "Login successful!"]).
Proof.
  intros Hs Hl1 Hl2 Hd1 Hd2. unfold login_page, user_by_username.
  rewrite (init_db_fresh_users env s Hs). simpl.
  rewrite (verify_hash_password _ _ Hl1 Hd1), (verify_hash_password _ _ Hl2 Hd2).
  by split.
Qed.

(** X8: [login_page] authenticates only a stored user whose password
    verifies.  Either the session is left as it was, or "Login" was clicked,
    a user row with the given name exists, the password verifies against its
    hash, and the session takes the name, role and id of that row. *)
Theorem login_page_sound (s : Store) (st : Session.t) (username password : string)
    (submit_button : bool) (st' : Session.t) (shown : list message) :
  login_page s st username password submit_button = (st', shown) ->
  (st' = st /\ shown <> [st_success "Login successful!"]
   /\ forall e, uncaught e ∉ shown)
  \/ (exists user,
        submit_button = true
        /\ user ∈ users s
        /\ User.username user = username
        /\ verify_password_try (User.password_hash user) password = Ok true
        /\ st' = Session.mk true (Some username) (Some (User.role user))
                            (Some (User.id user)) true
        /\ shown = [st_success "Login successful!"]).
Proof.
  unfold login_page, user_by_username, verify_password.
  destruct submit_button.
  2:{ intros [= <- <-]. left. repeat split; [discriminate|]. intros e He. inversion He. }
  destruct (find _ _) as [user|] eqn:Hf.
  2:{ intros [= <- <-]. left. repeat split; [discriminate|].
      intros e He. apply list_elem_of_singleton in He. discriminate He. }
  apply find_some in Hf as [Hin Hname]. apply bool_decide_eq_true in Hname.
  apply list_elem_of_In in Hin.
  destruct (verify_password_try _ _) as [[|]|e] eqn:Hv.
  - intros [= <- <-]. right. exists user. rewrite Hname. by repeat split.
  - intros [= <- <-]. left. repeat split; [discriminate|].
    intros e He. apply list_elem_of_singleton in He. discriminate He.
  - intros [= <- <-]. left. repeat split; [discriminate|].
    intros e' He. apply list_elem_of_singleton in He. discriminate He.
Qed.
End InitDbAnyStore.

Lemma hash_then_verify_witness :
  @verify_password sample_crypto
    (@hash_password sample_crypto "admin123" (replicate 16 Byte.x01)) "admin123" = Ok true
  /\ @verify_password_try sample_crypto
       (@hash_password sample_crypto "admin123" (replicate 16 Byte.x01)) "admin123" = Ok true.
Proof.
  apply (@hash_then_verify sample_crypto "admin123" (replicate 16 Byte.x01));
    vm_compute; reflexivity.
Defined.

Lemma seeded_users_can_log_in_witness :
  @login_page sample_crypto (@init_db sample_crypto salted_env empty_store)
    (Session.mk false None None None false) "admin" "admin123" true
  = (Session.mk true (Some "admin") (Some "admin") (Some 1) true,
     [st_success "Login successful!"])
  /\ @login_page sample_crypto (@init_db sample_crypto salted_env empty_store)
       (Session.mk false None None None false) "viewer" "view123" true
     = (Session.mk true (Some "viewer") (Some "viewer") (Some 2) true,
        [st_success "Login successful!"]).
Proof.
  apply (@seeded_users_can_log_in sample_crypto salted_env empty_store);
    vm_compute; reflexivity.
Defined.

Lemma login_page_sound_witness :
  (Session.mk false None None None false = Session.mk false None None None false
   /\ [st_error "Invalid username or password."] <> [st_success "Login successful!"]
   /\ forall e, uncaught e ∉ [st_error "Invalid username or password."])
  \/ (exists user,
        true = true
        /\ user ∈ users (@init_db sample_crypto salted_env empty_store)
        /\ User.username user = "admin"
        /\ @verify_password_try sample_crypto (User.password_hash user) "wrong" = Ok true
        /\ Session.mk false None None None false
           = Session.mk true (Some "admin") (Some (User.role user)) (Some (User.id user)) true
        /\ [st_error "Invalid username or password."] = [st_success "Login successful!"]).
Proof.
  apply (@login_page_sound sample_crypto (@init_db sample_crypto salted_env empty_store)
           (Session.mk false None None None false) "admin" "wrong" true).
  vm_compute. reflexivity.
Defined.

(** ** The pie charts of the dashboard *)

Lemma key_total_cons (k : string) (total : Q) (groups : list (string * Q)) (key : string) :
  key_total ((k, total) :: groups) key
  = if bool_decide (k = key) then total else key_total groups key.
Proof. unfold key_total. simpl. destruct (bool_decide _); reflexivity. Qed.

Lemma add_to_key_total (k : string) (a : Q) (groups : list (string * Q)) (key : string) :
  (key_total (add_to_key k a groups) key
   == key_total groups key + (if bool_decide (k = key) then a else 0))%Q.
Proof.
  induction groups as [|[k0 total] groups IH]; simpl.
  - rewrite key_total_cons. unfold key_total. simpl. destruct (bool_decide _); ring.
  - destruct (bool_decide (k0 = k)) eqn:E.
    + apply bool_decide_eq_true in E as ->. rewrite !key_total_cons.
      destruct (bool_decide (k = key)); ring.
    + apply bool_decide_eq_false in E. rewrite !key_total_cons.
      destruct (bool_decide (k0 = key)) eqn:E0.
      * apply bool_decide_eq_true in E0 as ->.
        rewrite bool_decide_eq_false_2; [ring|]. intros ->. by apply E.
      * exact IH.
Qed.

Lemma total_amount_filter_cons (P : TransactionRow -> Prop) `{forall r, Decision (P r)}
    (r : TransactionRow) (rows : list TransactionRow) :
  total_amount (filter P (r :: rows))
  = if decide (P r) then (Transaction.amount r + total_amount (filter P rows))%Q
    else total_amount (filter P rows).
Proof. rewrite filter_cons. destruct (decide (P r)); reflexivity. Qed.

Lemma income_fold_total (c : string) (rows : list TransactionRow)
    (groups : list (string * Q)) :
  c <> "" ->
  (key_total
     (fold_left
        (fun groups r =>
           match Transaction.counterparty r with
           | Some counterparty =>
               if bool_decide (Transaction.type r = enum_bind (PyStr (value INCOME)))
                  && negb (Transaction.is_void r)
                  && negb (bool_decide (counterparty = ""))
               then add_to_key counterparty (Transaction.amount r) groups
               else groups
           | None => groups
           end)
        rows groups) c
   == key_total groups c + total_amount (income_rows rows c))%Q.
Proof.
  intros Hc. revert groups. induction rows as [|r rows IH]; intros groups.
  - simpl. unfold income_rows, total_amount. simpl. ring.
  - simpl fold_left. rewrite IH. unfold income_rows. rewrite total_amount_filter_cons.
    change (enum_bind (PyStr (value INCOME))) with "income".
    destruct (Transaction.counterparty r) as [cp|] eqn:Hcp.
    + destruct (decide _) as [(Ht & Hv & Hcp')|Hno].
      * injection Hcp' as ->. rewrite Hv.
        rewrite (bool_decide_eq_true_2 _ Ht), (bool_decide_eq_false_2 _ Hc). simpl.
        rewrite add_to_key_total, bool_decide_eq_true_2 by reflexivity. ring.
      * destruct (bool_decide (Transaction.type r = "income")) eqn:Ht; simpl; [|ring].
        destruct (Transaction.is_void r) eqn:Hv; simpl; [ring|].
        destruct (bool_decide (cp = "")); simpl; [ring|].
        apply bool_decide_eq_true in Ht.
        rewrite add_to_key_total, bool_decide_eq_false_2; [ring|].
        intros ->. by apply Hno.
    + destruct (decide _) as [(_ & _ & Hcp')|_]; [discriminate Hcp'|]. ring.
Qed.

Lemma income_fold_empty_key (rows : list TransactionRow) (groups : list (string * Q)) :
  (key_total
     (fold_left
        (fun groups r =>
           match Transaction.counterparty r with
           | Some counterparty =>
               if bool_decide (Transaction.type r = enum_bind (PyStr (value INCOME)))
                  && negb (Transaction.is_void r)
                  && negb (bool_decide (counterparty = ""))
               then add_to_key counterparty (Transaction.amount r) groups
               else groups
           | None => groups
           end)
        rows groups) ""
   == key_total groups "")%Q.
Proof.
  revert groups. induction rows as [|r rows IH]; intros groups; [reflexivity|].
  simpl fold_left. rewrite IH. destruct (Transaction.counterparty r) as [cp|]; [|reflexivity].
  destruct (bool_decide (cp = "")) eqn:E; [by rewrite !andb_false_r|].
  destruct (_ && _ && _); [|reflexivity].
  apply bool_decide_eq_false in E.
  rewrite add_to_key_total, bool_decide_eq_false_2 by exact E. ring.
Qed.

(** X9: [get_income_by_counterparty] lists, for every counterparty that is not
    the empty string, the sum of the amounts of the non-void transactions
    stored with the type text 'income' and that counterparty; the empty
    counterparty is never listed. *)
Theorem income_by_counterparty_totals (s : Store) (counterparty : string) :
  (key_total (get_income_by_counterparty s) counterparty
   == if bool_decide (counterparty = "") then 0
      else total_amount (income_rows (transactions s) counterparty))%Q.
Proof.
  unfold get_income_by_counterparty. destruct (bool_decide (counterparty = "")) eqn:E.
  - apply bool_decide_eq_true in E as ->. rewrite income_fold_empty_key. reflexivity.
  - apply bool_decide_eq_false in E. rewrite (income_fold_total _ _ _ E).
    unfold key_total. simpl. ring.
Qed.

Lemma expenses_fold_total (cats : list Category.t) (n : string)
    (rows : list TransactionRow) (groups : list (string * Q)) :
  (key_total
     (fold_left
        (fun groups r =>
           match find (fun c => bool_decide (Category.id c = Transaction.category_id r))
                      cats with
           | Some category =>
               if bool_decide (Transaction.type r = enum_bind (PyStr (value EXPENSE)))
                  && negb (Transaction.is_void r)
                  && negb (like_Transfer (Category.name category))
               then add_to_key (Category.name category) (Transaction.amount r) groups
               else groups
           | None => groups
           end)
        rows groups) n
   == key_total groups n
      + (if like_Transfer n then 0
         else total_amount
                (filter (fun r => Transaction.type r = "expense"
                                  /\ Transaction.is_void r = false
                                  /\ option_map Category.name
                                       (find (fun c => bool_decide
                                                (Category.id c = Transaction.category_id r))
                                             cats) = Some n)
                        rows)))%Q.
Proof.
  revert groups. induction rows as [|r rows IH]; intros groups.
  - simpl. destruct (like_Transfer n); unfold total_amount; simpl; ring.
  - simpl fold_left. rewrite IH. rewrite total_amount_filter_cons.
    change (enum_bind (PyStr (value EXPENSE))) with "expense".
    destruct (find _ cats) as [category|] eqn:Hcat; simpl.
    + destruct (decide _) as [(Ht & Hv & Hn)|Hno].
      * injection Hn as <-. rewrite Hv, (bool_decide_eq_true_2 _ Ht). simpl.
        destruct (like_Transfer (Category.name category)); simpl; [ring|].
        rewrite add_to_key_total, bool_decide_eq_true_2 by reflexivity. ring.
      * destruct (bool_decide (Transaction.type r = "expense")) eqn:Ht; simpl;
          [|destruct (like_Transfer n); ring].
        destruct (Transaction.is_void r) eqn:Hv; simpl; [destruct (like_Transfer n); ring|].
        destruct (like_Transfer (Category.name category)) eqn:Hl; simpl;
          [destruct (like_Transfer n); ring|].
        apply bool_decide_eq_true in Ht. rewrite add_to_key_total.
        destruct (bool_decide (Category.name category = n)) eqn:E.
        -- apply bool_decide_eq_true in E. destruct Hno. by rewrite E.
        -- destruct (like_Transfer n); ring.
    + destruct (decide _) as [(_ & _ & Hn)|_]; [discriminate Hn|].
      destruct (like_Transfer n); ring.
Qed.

(** X10: [get_expenses_by_category] lists, for every category name that does
    not contain "transfer" in any case, the sum of the amounts of the non-void
    transactions stored with the type text 'expense' whose category row has
    that name; a category whose name contains "transfer" is never listed, and
    a transaction without a category row is left out. *)
Theorem expenses_by_category_totals (s : Store) (n : string) :
  (key_total (get_expenses_by_category s) n
   == if like_Transfer n then 0 else total_amount (expense_rows s n))%Q.
Proof.
  unfold get_expenses_by_category, expense_rows. rewrite expenses_fold_total.
  unfold key_total. simpl. ring.
Qed.

(** The three rows of [unfixed_store]: Acme's income is listed, the expense of
    category "Salary" is listed, and the transfer leg is not. *)
Lemma pie_charts_example :
  get_income_by_counterparty unfixed_store = [("Acme", 100%Q)]
  /\ get_expenses_by_category unfixed_store = [("Salary", 40%Q)]
  /\ like_Transfer "Inter-Account Transfer Out" = true.
Proof. repeat split; vm_compute; reflexivity. Qed.

Lemma pie_fold_skips {A} (step : list A -> TransactionRow -> list A)
    (rows : list TransactionRow) (groups : list A) :
  (forall g r, r ∈ rows -> step g r = g) -> fold_left step rows groups = groups.
Proof.
  revert groups. induction rows as [|r rows IH]; intros groups Hstep; [reflexivity|].
  simpl. rewrite Hstep by left. apply IH. intros g r' Hr'. apply Hstep. by right.
Qed.

Section PieChartsInARun.
Context `{CryptoLib}.

(** X11: when a page runs, [init_db] has rewritten every lowercase type, and
    both pie queries compare the type with the lowercase text: on the store
    [init_db] leaves, whatever it was before, "Income Sources" and "Expense
    Breakdown" have no row. *)
Theorem pie_charts_empty_after_init_db (env : Env) (s : Store) :
  get_income_by_counterparty (init_db env s) = []
  /\ get_expenses_by_category (init_db env s) = [].
Proof.
  assert (Hrows : forall r, r ∈ transactions (init_db env s) ->
                            Transaction.type r <> "income"
                            /\ Transaction.type r <> "expense").
  { intros r Hr. destruct (init_db_transactions env s) as [Ht _]. rewrite Ht in Hr.
    pose proof (filter_nil_not _ _ (fix_enum_data_fixed s) r Hr) as Hno.
    split; intros E; apply Hno; [by left|by right]. }
  split.
  - unfold get_income_by_counterparty. apply pie_fold_skips. intros g r Hr.
    destruct (Hrows r Hr) as [Hi _].
    change (enum_bind (PyStr (value INCOME))) with "income".
    rewrite (bool_decide_eq_false_2 _ Hi). simpl.
    destruct (Transaction.counterparty r); reflexivity.
  - unfold get_expenses_by_category. apply pie_fold_skips. intros g r Hr.
    destruct (Hrows r Hr) as [_ He].
    change (enum_bind (PyStr (value EXPENSE))) with "expense".
    rewrite (bool_decide_eq_false_2 _ He). simpl.
    destruct (find _ _); reflexivity.
Qed.
End PieChartsInARun.

(** ** What a run does to the transactions *)

Lemma fold_max_bounds (ids : list Z) :
  0 <= fold_right Z.max 0 ids /\ forall x, x ∈ ids -> x <= fold_right Z.max 0 ids.
Proof.
  induction ids as [|y ids [IH0 IH]]; simpl.
  - split; [lia|]. intros x Hx. inversion Hx.
  - split; [lia|]. intros x Hx. apply elem_of_cons in Hx as [->|Hx]; [lia|].
    specialize (IH x Hx). lia.
Qed.

Lemma next_id_above (ids : list Z) (x : Z) : x ∈ ids -> x < next_id ids.
Proof.
  intros Hx. unfold next_id. destruct (fold_max_bounds ids) as [_ Hb].
  specialize (Hb x Hx). lia.
Qed.

Lemma next_id_positive (ids : list Z) : 0 < next_id ids.
Proof. unfold next_id. destruct (fold_max_bounds ids) as [Hb _]. lia. Qed.

Lemma normalise_type_id (rows : list TransactionRow) :
  map Transaction.id (map normalise_type rows) = map Transaction.id rows.
Proof.
  rewrite map_map. apply map_ext. intros r. unfold normalise_type.
  destruct (bool_decide _); [reflexivity|]. destruct (bool_decide _); reflexivity.
Qed.

Lemma add_transaction_page_rows (s : Store) (f : AddForm.t) :
  transactions (fst (add_transaction_page s f)) = transactions s
  \/ exists account_id category_id,
       transactions (fst (add_transaction_page s f))
       = (transactions s ++
          [Transaction.mk (next_id (map Transaction.id (transactions s)))
             (AddForm.trans_date f) (value (AddForm.trans_type f))
             (number_input 0 (AddForm.amount f))
             (Some (AddForm.description f)) (Some (AddForm.counterparty f))
             false None None account_id category_id])%list.
Proof.
  unfold add_transaction_page, add_transaction_try.
  destruct (AddForm.submitted f); [|by left].
  destruct (subscript _ (AddForm.account_name f)) as [a|]; [|by left].
  destruct (subscript _ (AddForm.category_name f)) as [c|]; [|by left].
  right. exists a, c. reflexivity.
Qed.

Section RunsAndRows.
Context `{CryptoLib}.

Lemma init_db_rows (env : Env) (s : Store) :
  transactions (init_db env s) = map normalise_type (transactions s).
Proof.
  destruct (init_db_transactions env s) as [-> _]. apply fix_enum_data_rows.
Qed.

(** The transactions after a run: those [init_db] leaves, voided or extended
    by the page. *)
Lemma script_run_rows (env : Env) (a : Action) (s : Store) :
  let rows := map normalise_type (transactions s) in
  let rows' := transactions (script_run env a s) in
  rows' = rows
  \/ (exists i, rows' = transactions (fst (void_transaction (init_db env s) i)))
  \/ (exists f account_id category_id,
        rows' = (rows ++
                 [Transaction.mk (next_id (map Transaction.id rows))
                    (AddForm.trans_date f) (value (AddForm.trans_type f))
                    (number_input 0 (AddForm.amount f))
                    (Some (AddForm.description f)) (Some (AddForm.counterparty f))
                    false None None account_id category_id])%list)
  \/ (exists f rate converted from_id to_id out_id in_id,
        rows' = (rows ++ transfer_rows rows f rate converted from_id to_id out_id in_id)%list).
Proof.
  pose proof (init_db_rows env s) as Hinit.
  unfold script_run. destruct a as [| |i|f|f]; simpl.
  - left. exact Hinit.
  - left. destruct (get_account_balance _ 1); [|exact Hinit].
    destruct (get_account_balance _ 2); [|exact Hinit].
    destruct (get_latest_tables env (init_db env s)) as (_ & _ & _ & ->). exact Hinit.
  - right. left. by exists i.
  - destruct (add_transaction_page_rows (init_db env s) f) as [-> | (x & y & ->)].
    + left. exact Hinit.
    + right. right. left. exists f, x, y. rewrite Hinit. reflexivity.
  - destruct (transfer_all_or_nothing env (init_db env s) f)
      as [-> | (r & c & x & y & o & i & ->)].
    + left. exact Hinit.
    + right. right. right. exists f, r, c, x, y, o, i. rewrite Hinit. reflexivity.
Qed.

Lemma script_run_ids (env : Env) (a : Action) (s : Store) :
  let ids := map Transaction.id (transactions s) in
  exists new,
    map Transaction.id (transactions (script_run env a s)) = (ids ++ new)%list
    /\ (new = [] \/ new = [next_id ids]
        \/ new = [next_id ids; next_id (ids ++ [next_id ids])%list]).
Proof.
  pose proof (init_db_rows env s) as Hinit.
  destruct (script_run_rows env a s)
    as [-> | [(i & ->) | [(f & x & y & ->) | (f & r & c & x & y & o & i & ->)]]].
  - exists []. rewrite app_nil_r, normalise_type_id. by split; [|left].
  - exists []. destruct (void_transaction_tables (init_db env s) i) as (_ & _ & _ & _ & _ & ->).
    rewrite app_nil_r, Hinit, normalise_type_id. by split; [|left].
  - exists [next_id (map Transaction.id (transactions s))].
    rewrite map_app, normalise_type_id. simpl. by split; [|right; left].
  - eexists. rewrite map_app. unfold transfer_rows. simpl.
    rewrite map_app, normalise_type_id. simpl. split; [reflexivity|]. by right; right.
Qed.

(** X12: in every store the application reaches from an empty database the
    transaction ids are positive and no two transactions share an id. *)
Theorem transaction_ids_unique (s : Store) :
  reachable s ->
  NoDup (map Transaction.id (transactions s))
  /\ Forall (fun i => 0 < i) (map Transaction.id (transactions s)).
Proof.
  induction 1 as [|env a s Hs [IHd IHp]]; [split; constructor|].
  destruct (script_run_ids env a s) as (new & -> & Hnew).
  set (ids := map Transaction.id (transactions s)) in *.
  pose proof (next_id_above ids) as Habove.
  pose proof (next_id_positive ids) as Hpos.
  pose proof (next_id_positive (ids ++ [next_id ids])) as Hpos'.
  assert (Hlt : next_id ids < next_id (ids ++ [next_id ids])).
  { apply next_id_above. apply elem_of_app. right. by left. }
  destruct Hnew as [-> | [-> | ->]].
  - rewrite app_nil_r. by split.
  - split.
    + apply NoDup_app. split; [exact IHd|]. split; [|apply NoDup_singleton].
      intros x Hx Hx'. apply list_elem_of_singleton in Hx'. specialize (Habove x Hx). lia.
    + apply Forall_app. split; [exact IHp|]. by repeat constructor.
  - split.
    + apply NoDup_app. split; [exact IHd|]. split.
      * intros x Hx Hx'. specialize (Habove x Hx).
        apply elem_of_cons in Hx' as [->|Hx']; [lia|].
        apply list_elem_of_singleton in Hx'. lia.
      * apply NoDup_cons. split; [|apply NoDup_singleton].
        intros Hx. apply list_elem_of_singleton in Hx. lia.
    + apply Forall_app. split; [exact IHp|]. by repeat constructor.
Qed.

(** X13: a run never deletes a transaction and never changes one beyond its
    void flag and the case of its type text: the rows of before, with type
    normalised and the void flag cleared, are a prefix of the rows of after,
    treated alike; and a run adds no row, one row or the two rows of a
    transfer. *)
Theorem script_run_keeps_transactions (env : Env) (a : Action) (s : Store) :
  let erase := fun r => Transaction.with_is_void (normalise_type r) false in
  map erase (transactions s) `prefix_of` map erase (transactions (script_run env a s))
  /\ (length (transactions s) <= length (transactions (script_run env a s))
      <= length (transactions s) + 2)%nat.
Proof.
  intros erase.
  assert (Herase : map erase (map normalise_type (transactions s))
                   = map erase (transactions s)).
  { rewrite map_map. apply map_ext. intros r. unfold erase, normalise_type.
    destruct (bool_decide (Transaction.type r = "income")) eqn:E1; [reflexivity|].
    destruct (bool_decide (Transaction.type r = "expense")) eqn:E2; [reflexivity|].
    rewrite E1, E2. reflexivity. }
  pose proof (init_db_rows env s) as Hinit.
  destruct (script_run_rows env a s)
    as [-> | [(i & ->) | [(f & x & y & ->) | (f & r & c & x & y & o & i & ->)]]].
  - rewrite Herase, length_map. split; [reflexivity|lia].
  - destruct (void_transaction_tables (init_db env s) i) as (_ & _ & _ & _ & Hv & Hi).
    assert (Hlen : length (transactions (fst (void_transaction (init_db env s) i)))
                   = length (transactions s)).
    { rewrite <- (length_map Transaction.id), Hi, length_map, Hinit, length_map.
      reflexivity. }
    split; [|lia].
    assert (Hcomp : forall l, map erase l
                              = map erase (map (fun r => Transaction.with_is_void r false) l)).
    { intros l. rewrite map_map. apply map_ext. intros r0. unfold erase, normalise_type.
      simpl. destruct (bool_decide _); [reflexivity|]. destruct (bool_decide _); reflexivity. }
    assert (Hsame : map erase (transactions (fst (void_transaction (init_db env s) i)))
                    = map erase (transactions (init_db env s))).
    { rewrite Hcomp, Hv, <- Hcomp. reflexivity. }
    rewrite Hsame, Hinit, Herase. reflexivity.
  - rewrite map_app, Herase, length_app, length_map. simpl.
    split; [by apply prefix_app_r|lia].
  - rewrite map_app, Herase, length_app, length_map. simpl.
    split; [by apply prefix_app_r|lia].
Qed.
End RunsAndRows.

Lemma transaction_ids_unique_witness :
  NoDup (map Transaction.id
           (transactions (@script_run sample_crypto sample_env
                                      (TransferFunds usd_to_inr_form) empty_store)))
  /\ Forall (fun i => 0 < i)
       (map Transaction.id
          (transactions (@script_run sample_crypto sample_env
                                     (TransferFunds usd_to_inr_form) empty_store))).
Proof.
  apply (@transaction_ids_unique sample_crypto).
  apply reachable_run, reachable_empty.
Defined.

(** ** Stored types load in every run *)

Lemma load_named (r : TransactionRow) :
  Transaction.type r = "INCOME" \/ Transaction.type r = "EXPENSE" -> exists t, load r = Ok t.
Proof. unfold load, enum_result. intros [-> | ->]; simpl; eauto. Qed.

Lemma mapM_load_named (rows : list TransactionRow) :
  Forall (fun r => Transaction.type r = "INCOME" \/ Transaction.type r = "EXPENSE") rows ->
  exists txs, mapM load rows = Ok txs.
Proof.
  induction 1 as [|r rows Hr _ [txs IH]]; simpl; [by eexists|].
  destruct (load_named r Hr) as [t ->]. rewrite IH. simpl. by eexists.
Qed.

Lemma normalise_written (r : TransactionRow) :
  written_type r ->
  Transaction.type (normalise_type r) = "INCOME"
  \/ Transaction.type (normalise_type r) = "EXPENSE".
Proof.
  unfold written_type, normalise_type. intros [E | [E | [E | E]]]; rewrite E; simpl; auto.
Qed.

Lemma written_type_by_types (rows rows' : list TransactionRow) :
  map Transaction.type rows' = map Transaction.type rows ->
  Forall written_type rows -> Forall written_type rows'.
Proof.
  revert rows'. induction rows as [|r rows IH]; intros [|r' rows'] Ht Hrows;
    try discriminate Ht; [constructor|].
  injection Ht as Hr Ht. inversion Hrows as [|? ? Hw Hrest]; subst.
  constructor; [|by apply IH]. unfold written_type in *. rewrite Hr. exact Hw.
Qed.

Lemma add_to_group_types (P : string -> Prop) (month type : string) (amount : Q)
    (groups : list group_row) :
  P type -> Forall (fun g => P (snd (fst g))) groups ->
  Forall (fun g => P (snd (fst g))) (add_to_group month type amount groups).
Proof.
  intros Ht. induction 1 as [|[[m t] total] groups Hg Hrest IH]; simpl.
  - by repeat constructor.
  - destruct (bool_decide _); constructor; assumption.
Qed.

Lemma monthly_query_types (P : string -> Prop) (start_date : Date)
    (rows : list TransactionRow) :
  Forall (fun r => P (Transaction.type r)) rows ->
  Forall (fun g => P (snd (fst g))) (monthly_query start_date rows).
Proof.
  unfold monthly_query. intros Hrows.
  assert (Hnil : Forall (fun g : group_row => P (snd (fst g))) []) by constructor.
  revert Hnil. generalize (@nil group_row).
  induction Hrows as [|r rows Hr _ IH]; intros groups Hgroups; simpl; [exact Hgroups|].
  apply IH. destruct (_ && _); [|exact Hgroups]. by apply add_to_group_types.
Qed.

Lemma mapM_load_group_named (groups : list group_row) :
  Forall (fun g => snd (fst g) = "INCOME" \/ snd (fst g) = "EXPENSE") groups ->
  exists results, mapM load_group groups = Ok results.
Proof.
  induction 1 as [|[[m t] total] groups Hg _ [results IH]]; simpl; [by eexists|].
  rewrite IH. unfold enum_result. simpl in Hg. destruct Hg as [-> | ->]; simpl; by eexists.
Qed.

Lemma Forall_filter_keep {A} (P Q : A -> Prop) `{forall x, Decision (Q x)} (l : list A) :
  Forall P l -> Forall P (filter Q l).
Proof.
  rewrite !Forall_forall. intros Hl x Hx. apply list_elem_of_filter in Hx as [_ Hx].
  by apply Hl.
Qed.

Section LoadingInARun.
Context `{CryptoLib}.

Lemma script_run_written (env : Env) (a : Action) (s : Store) :
  Forall written_type (transactions s) ->
  Forall written_type (transactions (script_run env a s)).
Proof.
  intros Hs.
  assert (Hnorm : Forall written_type (map normalise_type (transactions s))).
  { apply Forall_map. eapply Forall_impl; [exact Hs|]. intros r Hr. simpl.
    destruct (normalise_written r Hr) as [E|E]; unfold written_type; auto. }
  destruct (script_run_rows env a s)
    as [-> | [(i & ->) | [(f & x & y & ->) | (f & r & c & x & y & o & i & ->)]]].
  - exact Hnorm.
  - destruct (void_transaction_tables (init_db env s) i) as (_ & _ & _ & _ & Hv & _).
    apply (f_equal (map Transaction.type)) in Hv. rewrite !map_map in Hv.
    eapply written_type_by_types; [exact Hv|]. rewrite init_db_rows. exact Hnorm.
  - apply Forall_app. split; [exact Hnorm|]. constructor; [|constructor].
    unfold written_type. simpl. destruct (AddForm.trans_type f); simpl.
    + right. right. left. reflexivity.
    + right. right. right. reflexivity.
  - apply Forall_app. split; [exact Hnorm|]. unfold transfer_rows.
    constructor; [|constructor; [|constructor]]; unfold written_type; simpl.
    + right. right. right. reflexivity.
    + right. right. left. reflexivity.
Qed.

Lemma reachable_written (s : Store) : reachable s -> Forall written_type (transactions s).
Proof.
  induction 1 as [|env a s Hs IH]; [constructor|]. by apply script_run_written.
Qed.

Lemma init_db_named (env : Env) (s : Store) :
  Forall written_type (transactions s) ->
  Forall (fun r => Transaction.type r = "INCOME" \/ Transaction.type r = "EXPENSE")
         (transactions (init_db env s)).
Proof.
  intros Hs. rewrite init_db_rows. apply Forall_map.
  eapply Forall_impl; [exact Hs|]. intros r Hr. by apply normalise_written.
Qed.

(** X14: in every run on a store the application has reached, the stored type
    texts load as members: [get_account_balance] returns a number for every
    account id, [void_transaction] ends with success or "Transaction not
    found.", and [get_profit_loss_data] returns a frame; none raises the
    enum's lookup error. *)
Theorem no_lookup_error_in_a_run (s : Store) (env : Env) :
  reachable s ->
  (forall account_id, exists q, get_account_balance (init_db env s) account_id = Ok q)
  /\ (forall i,
        snd (void_transaction (init_db env s) i) = [st_success "Transaction voided successfully."]
        \/ snd (void_transaction (init_db env s) i) = [st_error "Transaction not found."])
  /\ (forall months, exists df, get_profit_loss_data env months (init_db env s) = Ok df).
Proof.
  intros Hs. pose proof (init_db_named env s (reachable_written s Hs)) as Hnamed.
  split; [|split].
  - intros account_id. unfold get_account_balance, account_transactions.
    destruct (find _ _) as [account|]; [|by eexists].
    destruct (mapM_load_named
                (filter (fun r => Transaction.account_id r = Account.id account)
                        (transactions (init_db env s)))) as [txs ->].
    + by apply Forall_filter_keep.
    + simpl. by eexists.
  - intros i. unfold void_transaction.
    destruct (find _ _) as [row|] eqn:Hf; [|by right].
    apply find_some in Hf as [Hin _]. apply list_elem_of_In in Hin.
    rewrite Forall_forall in Hnamed. destruct (load_named row (Hnamed row Hin)) as [t ->].
    by left.
  - intros months. unfold get_profit_loss_data.
    destruct (mapM_load_group_named
                (monthly_query (minus_days (today env) (30 * months))
                               (transactions (init_db env s)))) as [results ->].
    + by apply (monthly_query_types (fun t => t = "INCOME" \/ t = "EXPENSE")).
    + simpl. destruct results; by eexists.
Qed.
End LoadingInARun.

Lemma no_lookup_error_in_a_run_witness :
  let s := @script_run sample_crypto sample_env (TransferFunds usd_to_inr_form) empty_store in
  (forall account_id,
      exists q, get_account_balance (@init_db sample_crypto sample_env s) account_id = Ok q)
  /\ (forall i,
        snd (void_transaction (@init_db sample_crypto sample_env s) i)
        = [st_success "Transaction voided successfully."]
        \/ snd (void_transaction (@init_db sample_crypto sample_env s) i)
           = [st_error "Transaction not found."])
  /\ (forall months,
        exists df, get_profit_loss_data sample_env months
                     (@init_db sample_crypto sample_env s) = Ok df).
Proof.
  apply (@no_lookup_error_in_a_run sample_crypto).
  apply reachable_run, reachable_empty.
Defined.

(** Without the run's [init_db], on rows as a page has just stored them, the
    balance does raise. *)
Lemma balance_raises_on_unfixed_rows :
  get_account_balance unfixed_store 1 = Raise LookupError.
Proof. vm_compute. reflexivity. Qed.

(** ** The stored exchange rate *)

Lemma latest_rate_row_snoc (rows : list ExchangeRate.t) (x : ExchangeRate.t) :
  latest_rate_row (rows ++ [x])
  = match latest_rate_row rows with
    | None => Some x
    | Some b => if toordinal (ExchangeRate.date b) <? toordinal (ExchangeRate.date x)
                then Some x else Some b
    end.
Proof. unfold latest_rate_row. rewrite fold_left_app. reflexivity. Qed.

Lemma latest_rate_row_spec (rows : list ExchangeRate.t) :
  match latest_rate_row rows with
  | None => rows = []
  | Some r =>
      r ∈ rows
      /\ forall x, x ∈ rows ->
                   toordinal (ExchangeRate.date x) <= toordinal (ExchangeRate.date r)
  end.
Proof.
  induction rows as [|x rows IH] using rev_ind; [reflexivity|].
  rewrite latest_rate_row_snoc. destruct (latest_rate_row rows) as [b|].
  - destruct IH as [Hb Hmax].
    destruct (toordinal (ExchangeRate.date b) <? toordinal (ExchangeRate.date x)) eqn:E.
    + apply Z.ltb_lt in E. split; [apply elem_of_app; right; by left|].
      intros y Hy. apply elem_of_app in Hy as [Hy|Hy].
      * specialize (Hmax y Hy). lia.
      * apply list_elem_of_singleton in Hy as ->. lia.
    + apply Z.ltb_ge in E. split; [apply elem_of_app; by left|].
      intros y Hy. apply elem_of_app in Hy as [Hy|Hy]; [by apply Hmax|].
      apply list_elem_of_singleton in Hy as ->. exact E.
  - subst rows. split; [by left|]. intros y Hy.
    apply list_elem_of_singleton in Hy as ->. lia.
Qed.

(** X15: with a rate in the table, [get_latest_exchange_rate] does not call the
    rate source and writes nothing; it returns the rate of a stored row whose
    date is not earlier than that of any other row. *)
Theorem get_latest_returns_latest_stored (env : Env) (s : Store) :
  exchange_rates s <> [] ->
  exists r,
    r ∈ exchange_rates s
    /\ (forall x, x ∈ exchange_rates s ->
                  toordinal (ExchangeRate.date x) <= toordinal (ExchangeRate.date r))
    /\ get_latest_exchange_rate env s = (s, Ok (ExchangeRate.usd_to_inr r), []).
Proof.
  intros Hs. unfold get_latest_exchange_rate.
  pose proof (latest_rate_row_spec (exchange_rates s)) as Hspec.
  destruct (latest_rate_row (exchange_rates s)) as [r|]; [|contradiction].
  destruct Hspec as [Hr Hmax]. exists r. by repeat split.
Qed.

Lemma get_latest_returns_latest_stored_witness :
  exists r,
    r ∈ exchange_rates zero_rate_store
    /\ (forall x, x ∈ exchange_rates zero_rate_store ->
                  toordinal (ExchangeRate.date x) <= toordinal (ExchangeRate.date r))
    /\ get_latest_exchange_rate sample_env zero_rate_store
       = (zero_rate_store, Ok (ExchangeRate.usd_to_inr r), []).
Proof.
  apply (get_latest_returns_latest_stored sample_env zero_rate_store).
  intros E. discriminate E.
Defined.

(** X16: a successful fetch stores the rate under today's date without adding
    a second row for the day: the table gets one new row when it has none of
    today and keeps its length otherwise; afterwards a row of today holds the
    fetched rate; nothing else in the store changes. *)
Theorem fetch_and_store_upserts (env : Env) (s : Store) (current_rate : Q) :
  reply env = Rates current_rate ->
  let s' := fst (fst (fetch_and_store_exchange_rate env s)) in
  snd (fst (fetch_and_store_exchange_rate env s)) = Ok current_rate
  /\ (exists row, row ∈ exchange_rates s'
                  /\ ExchangeRate.date row = today env
                  /\ ExchangeRate.usd_to_inr row = current_rate)
  /\ length (exchange_rates s')
     = (length (exchange_rates s)
        + if find (fun r => bool_decide (ExchangeRate.date r = today env)) (exchange_rates s)
          is Some _ then 0 else 1)%nat
  /\ map ExchangeRate.id (exchange_rates s) `prefix_of` map ExchangeRate.id (exchange_rates s')
  /\ accounts s' = accounts s /\ categories s' = categories s
  /\ users s' = users s /\ transactions s' = transactions s.
Proof.
  intros Hreply. unfold fetch_and_store_exchange_rate. rewrite Hreply.
  destruct (find _ (exchange_rates s)) as [existing|] eqn:Hf; simpl.
  - apply find_some in Hf as [Hin Hdate]. apply bool_decide_eq_true in Hdate.
    apply list_elem_of_In in Hin.
    repeat split; try reflexivity.
    + exists (ExchangeRate.mk (ExchangeRate.id existing) (ExchangeRate.date existing)
                              current_rate).
      split; [|by split]. apply list_elem_of_fmap. exists existing.
      rewrite bool_decide_eq_true_2 by reflexivity. by split.
    + rewrite length_map. lia.
    + rewrite map_map. erewrite map_ext; [reflexivity|].
      intros r. simpl. destruct (bool_decide _); reflexivity.
  - repeat split; try reflexivity.
    + eexists. split; [apply elem_of_app; right; by left|]. by split.
    + rewrite length_app. reflexivity.
    + rewrite map_app. by apply prefix_app_r.
Qed.

Lemma fetch_and_store_upserts_witness :
  let s' := fst (fst (fetch_and_store_exchange_rate sample_env zero_rate_store)) in
  snd (fst (fetch_and_store_exchange_rate sample_env zero_rate_store)) = Ok (167 # 2)%Q
  /\ (exists row, row ∈ exchange_rates s'
                  /\ ExchangeRate.date row = today sample_env
                  /\ ExchangeRate.usd_to_inr row = (167 # 2)%Q)
  /\ length (exchange_rates s')
     = (length (exchange_rates zero_rate_store)
        + if find (fun r => bool_decide (ExchangeRate.date r = today sample_env))
                  (exchange_rates zero_rate_store)
          is Some _ then 0 else 1)%nat
  /\ map ExchangeRate.id (exchange_rates zero_rate_store)
     `prefix_of` map ExchangeRate.id (exchange_rates s')
  /\ accounts s' = accounts zero_rate_store /\ categories s' = categories zero_rate_store
  /\ users s' = users zero_rate_store /\ transactions s' = transactions zero_rate_store.
Proof.
  apply (fetch_and_store_upserts sample_env zero_rate_store (167 # 2)%Q). reflexivity.
Defined.

Lemma get_latest_rates (env : Env) (s : Store) :
  exchange_rates (fst (fst (get_latest_exchange_rate env s))) = exchange_rates s
  \/ exchange_rates s = []
     /\ exists r, exchange_rates (fst (fst (get_latest_exchange_rate env s))) = [r].
Proof.
  unfold get_latest_exchange_rate.
  pose proof (latest_rate_row_spec (exchange_rates s)) as Hspec.
  destruct (latest_rate_row (exchange_rates s)); [by left|].
  unfold fetch_and_store_exchange_rate. destruct (reply env); [by left|by left|].
  right. split; [exact Hspec|]. rewrite Hspec. simpl. by eexists.
Qed.

Lemma transfer_funds_page_rates (env : Env) (s : Store) (f : TransferForm.t) :
  exchange_rates (fst (transfer_funds_page env s f))
  = exchange_rates (fst (fst (get_latest_exchange_rate env s))).
Proof.
  destruct (transfer_funds_page_store env s f) as [-> | (rate & a & b & Htry)];
    [reflexivity|].
  apply transfer_try_ok in Htry as (o & i & c & _ & _ & _ & ->). reflexivity.
Qed.

Section RatesInARun.
Context `{CryptoLib}.

Lemma script_run_rates (env : Env) (a : Action) (s : Store) :
  exchange_rates (script_run env a s) = exchange_rates s
  \/ exchange_rates s = [] /\ exists r, exchange_rates (script_run env a s) = [r].
Proof.
  destruct (init_db_transactions env s) as [_ Hinit].
  unfold script_run. destruct a as [| |i|f|f].
  - by left.
  - destruct (get_account_balance _ 1); [|by left].
    destruct (get_account_balance _ 2); [|by left].
    destruct (get_latest_rates env (init_db env s)) as [-> | [E Hr]]; [by left|].
    right. split; [by rewrite <- Hinit|exact Hr].
  - left. destruct (void_transaction_tables (init_db env s) i) as (_ & _ & _ & -> & _).
    exact Hinit.
  - left. unfold add_transaction_page, add_transaction_try.
    destruct (AddForm.submitted f); [|exact Hinit].
    destruct (subscript _ (AddForm.account_name f)); [|exact Hinit].
    destruct (subscript _ (AddForm.category_name f)); exact Hinit.
  - rewrite transfer_funds_page_rates.
    destruct (get_latest_rates env (init_db env s)) as [-> | [E Hr]]; [by left|].
    right. split; [by rewrite <- Hinit|exact Hr].
Qed.

(** X17: the rate is fetched at most once in the life of a database.  A store
    the application has reached holds at most one exchange rate, and once it
    holds one, every later lookup returns that rate and neither calls the rate
    source nor writes, whatever the day. *)
Theorem rate_is_fetched_once (s : Store) :
  reachable s ->
  (length (exchange_rates s) <= 1)%nat
  /\ forall env r, r ∈ exchange_rates s ->
                   get_latest_exchange_rate env s = (s, Ok (ExchangeRate.usd_to_inr r), []).
Proof.
  intros Hs.
  assert (Hlen : (length (exchange_rates s) <= 1)%nat).
  { induction Hs as [|env a s Hs IH]; [simpl; lia|].
    destruct (script_run_rates env a s) as [-> | [_ [r ->]]]; [exact IH|simpl; lia]. }
  split; [exact Hlen|]. intros env r Hr.
  destruct (exchange_rates s) as [|r0 [|r1 rows]] eqn:E; [inversion Hr| |simpl in Hlen; lia].
  apply list_elem_of_singleton in Hr as ->.
  unfold get_latest_exchange_rate. rewrite E. reflexivity.
Qed.
End RatesInARun.

Lemma rate_is_fetched_once_witness :
  let s := @script_run sample_crypto sample_env (TransferFunds usd_to_inr_form) empty_store in
  (length (exchange_rates s) <= 1)%nat
  /\ forall env r, r ∈ exchange_rates s ->
                   get_latest_exchange_rate env s = (s, Ok (ExchangeRate.usd_to_inr r), []).
Proof.
  apply (@rate_is_fetched_once sample_crypto).
  apply reachable_run, reachable_empty.
Defined.

(** ** The dropdown dictionaries *)

Lemma fold_insert_snoc {A} (key : A -> string) (val : A -> Z) (l : list A) (x : A) :
  fold_left (fun (d : gmap string Z) y => <[key y := val y]> d) (l ++ [x]) ∅
  = <[key x := val x]> (fold_left (fun (d : gmap string Z) y => <[key y := val y]> d) l ∅).
Proof. rewrite fold_left_app. reflexivity. Qed.

Lemma fold_insert_lookup {A} (key : A -> string) (val : A -> Z) (l : list A)
    (k : string) (v : Z) :
  fold_left (fun (d : gmap string Z) y => <[key y := val y]> d) l ∅ !! k = Some v ->
  exists x, x ∈ l /\ key x = k /\ val x = v.
Proof.
  induction l as [|x l IH] using rev_ind; [intros E; discriminate E|].
  rewrite fold_insert_snoc. intros Hk. apply lookup_insert_Some in Hk as [[Hx Hv]|[_ Hk]].
  - exists x. split; [apply elem_of_app; right; by left|by split].
  - destruct (IH Hk) as (y & Hy & Hky & Hvy). exists y.
    split; [apply elem_of_app; by left|by split].
Qed.

Lemma fold_insert_is_Some {A} (key : A -> string) (val : A -> Z) (l : list A) (x : A) :
  x ∈ l ->
  is_Some (fold_left (fun (d : gmap string Z) y => <[key y := val y]> d) l ∅ !! key x).
Proof.
  induction l as [|y l IH] using rev_ind; [intros Hx; inversion Hx|].
  rewrite fold_insert_snoc. intros Hx. apply lookup_insert_is_Some'.
  apply elem_of_app in Hx as [Hx|Hx]; [right; by apply IH|].
  apply list_elem_of_singleton in Hx as ->. by left.
Qed.

Lemma fold_insert_unique {A} (key : A -> string) (val : A -> Z) (l : list A) (x : A) :
  NoDup (map key l) -> x ∈ l ->
  fold_left (fun (d : gmap string Z) y => <[key y := val y]> d) l ∅ !! key x = Some (val x).
Proof.
  induction l as [|y l IH] using rev_ind; [intros _ Hx; inversion Hx|].
  rewrite fold_insert_snoc, map_app. intros Hnd Hx.
  apply NoDup_app in Hnd as (Hnd & Hfresh & _).
  apply elem_of_app in Hx as [Hx|Hx].
  - rewrite lookup_insert_ne; [by apply IH|]. intros E.
    apply (Hfresh (key x)); [|rewrite <- E; by left].
    apply list_elem_of_fmap. by exists x.
  - apply list_elem_of_singleton in Hx as ->. apply lookup_insert_eq.
Qed.

(** X18: the dropdown dictionaries hold exactly the rows of their table.
    Every key of [get_all_accounts] is the label "name (currency)" of an account
    and its value that account's id; every account's label is a key, and maps
    to that very account when no other account has the label; a key that is no
    account's label raises [KeyError].  The same holds of [get_all_categories]
    with the category names. *)
Theorem dropdown_dictionaries (s : Store) :
  (forall k v, get_all_accounts s !! k = Some v ->
               exists a, a ∈ accounts s /\ account_label a = k /\ Account.id a = v)
  /\ (forall a, a ∈ accounts s -> is_Some (get_all_accounts s !! account_label a))
  /\ (NoDup (map account_label (accounts s)) ->
      forall a, a ∈ accounts s ->
                subscript (get_all_accounts s) (account_label a) = Ok (Account.id a))
  /\ (forall k, (forall a, a ∈ accounts s -> account_label a <> k) ->
                subscript (get_all_accounts s) k = Raise KeyError)
  /\ (forall k v, get_all_categories s !! k = Some v ->
                  exists c, c ∈ categories s /\ Category.name c = k /\ Category.id c = v)
  /\ (forall c, c ∈ categories s -> is_Some (get_all_categories s !! Category.name c))
  /\ (NoDup (map Category.name (categories s)) ->
      forall c, c ∈ categories s ->
                subscript (get_all_categories s) (Category.name c) = Ok (Category.id c))
  /\ (forall k, (forall c, c ∈ categories s -> Category.name c <> k) ->
                subscript (get_all_categories s) k = Raise KeyError).
Proof.
  unfold get_all_accounts, get_all_categories, subscript.
  split; [apply fold_insert_lookup|]. split; [apply fold_insert_is_Some|].
  split; [intros Hnd a Ha; by rewrite (fold_insert_unique _ _ _ _ Hnd Ha)|].
  split.
  { intros k Hk. destruct (fold_left _ (accounts s) ∅ !! k) as [v|] eqn:E; [|reflexivity].
    apply fold_insert_lookup in E as (a & Ha & Hl & _). destruct (Hk a Ha Hl). }
  split; [apply fold_insert_lookup|]. split; [apply fold_insert_is_Some|].
  split; [intros Hnd c Hc; by rewrite (fold_insert_unique _ _ _ _ Hnd Hc)|].
  intros k Hk. destruct (fold_left _ (categories s) ∅ !! k) as [v|] eqn:E; [|reflexivity].
  apply fold_insert_lookup in E as (c & Hc & Hl & _). destruct (Hk c Hc Hl).
Qed.

(** ** Adding a transaction: what changes *)

(** X19: [add_transaction_page] changes nothing but the transactions, and these
    it leaves as they are or extends by one row: non-void, with the amount of
    the form's amount field (never below zero, and the number entered when
    that is at least zero), no rate and no transfer id, and an id greater than
    every id of the table.  When the form is submitted with an account or a
    category that is not in the dictionaries, the error is reported and nothing
    is written. *)
Theorem add_transaction_page_effect (s : Store) (f : AddForm.t) :
  let s' := fst (add_transaction_page s f) in
  accounts s' = accounts s /\ categories s' = categories s
  /\ users s' = users s /\ exchange_rates s' = exchange_rates s
  /\ (transactions s' = transactions s
      \/ exists row,
           transactions s' = (transactions s ++ [row])%list
           /\ Transaction.is_void row = false
           /\ Transaction.amount row = number_input 0 (AddForm.amount f)
           /\ (0 <= Transaction.amount row)%Q
           /\ ((0 <= AddForm.amount f)%Q -> Transaction.amount row = AddForm.amount f)
           /\ Transaction.type row = value (AddForm.trans_type f)
           /\ Transaction.exchange_rate row = None
           /\ Transaction.transfer_id row = None
           /\ forall r, r ∈ transactions s -> Transaction.id r < Transaction.id row)
  /\ (AddForm.submitted f = true ->
      get_all_accounts s !! AddForm.account_name f = None
      \/ get_all_categories s !! AddForm.category_name f = None ->
      add_transaction_page s f = (s, [st_error_exn "Error adding transaction" KeyError])).
Proof.
  intros s'.
  assert (Htables : accounts s' = accounts s /\ categories s' = categories s
                    /\ users s' = users s /\ exchange_rates s' = exchange_rates s).
  { subst s'. unfold add_transaction_page, add_transaction_try.
    destruct (AddForm.submitted f); [|by repeat split].
    destruct (subscript _ (AddForm.account_name f)); [|by repeat split].
    destruct (subscript _ (AddForm.category_name f)); by repeat split. }
  destruct Htables as (Ha & Hc & Hu & He). repeat split; try assumption.
  - destruct (add_transaction_page_rows s f) as [Hsame | (x & y & Hnew)]; [by left|].
    right. eexists. split; [exact Hnew|]. simpl.
    split; [reflexivity|]. split; [reflexivity|].
    split; [apply number_input_bound|]. split; [apply number_input_above|].
    repeat split.
    intros r Hr. apply next_id_above. apply list_elem_of_fmap. by exists r.
  - intros Hsub Hmissing. unfold add_transaction_page, add_transaction_try, subscript.
    rewrite Hsub. destruct Hmissing as [-> | Hcat]; [reflexivity|].
    destruct (get_all_accounts s !! AddForm.account_name f); [|reflexivity].
    rewrite Hcat. reflexivity.
Qed.

(** ** A transfer at a rate of zero *)

(** X20: with a stored rate of zero, a transfer from an INR account to a USD
    account stops at the estimate, which divides by the rate outside any
    [try]: the page ends with an uncaught [ZeroDivisionError] whether or not
    the form was submitted, and writes nothing. *)
Theorem transfer_at_zero_rate_crashes (env : Env) (s s' : Store) (f : TransferForm.t)
    (rate : Q) (shown : list message) (from_id to_id : Z) :
  get_latest_exchange_rate env s = (s', Ok rate, shown) ->
  (rate == 0)%Q ->
  TransferForm.from_account_name f <> TransferForm.to_account_name f ->
  get_all_accounts s !! TransferForm.from_account_name f = Some from_id ->
  get_all_accounts s !! TransferForm.to_account_name f = Some to_id ->
  contains "USD" (TransferForm.from_account_name f)
  && contains "INR" (TransferForm.to_account_name f) = false ->
  contains "INR" (TransferForm.from_account_name f)
  && contains "USD" (TransferForm.to_account_name f) = true ->
  transfer_funds_page env s f = (s', shown ++ [uncaught ZeroDivisionError])%list.
Proof.
  intros Hrate Hzero Hne Hfrom Hto Hno Hyes.
  unfold transfer_funds_page. rewrite Hrate.
  rewrite bool_decide_eq_true_2 by exact Hne. unfold subscript. rewrite Hfrom, Hto.
  unfold transfer_preview, py_div. rewrite Hno, Hyes.
  apply Qeq_bool_iff in Hzero. rewrite Hzero. reflexivity.
Qed.

Lemma transfer_at_zero_rate_crashes_witness :
  transfer_funds_page sample_env zero_rate_store inr_to_usd_form
  = (zero_rate_store, [] ++ [uncaught ZeroDivisionError])%list.
Proof.
  apply (transfer_at_zero_rate_crashes sample_env zero_rate_store zero_rate_store
           inr_to_usd_form 0%Q [] 2 1); vm_compute; try reflexivity.
  intros E. discriminate E.
Defined.

(** ** Accounts, categories and users after the first run *)

Section MasterData.
Context `{CryptoLib}.

Lemma script_run_users (env : Env) (a : Action) (s : Store) :
  users (script_run env a s) = users (init_db env s).
Proof.
  unfold script_run. destruct a as [| |i|f|f].
  - reflexivity.
  - destruct (get_account_balance _ 1); [|reflexivity].
    destruct (get_account_balance _ 2); [|reflexivity].
    by destruct (get_latest_tables env (init_db env s)) as (_ & _ & -> & _).
  - by destruct (void_transaction_tables (init_db env s) i) as (_ & _ & -> & _).
  - unfold add_transaction_page, add_transaction_try.
    destruct (AddForm.submitted f); [|reflexivity].
    destruct (subscript _ (AddForm.account_name f)); [|reflexivity].
    destruct (subscript _ (AddForm.category_name f)); reflexivity.
  - destruct (get_latest_tables env (init_db env s)) as (_ & _ & Hu & _).
    destruct (transfer_funds_page_store env (init_db env s) f)
      as [-> | (rate & x & y & Htry)]; [exact Hu|].
    apply transfer_try_ok in Htry as (o & i & c & _ & _ & _ & ->). exact Hu.
Qed.

(** X21: once [init_db] has run, no run of the application changes the
    accounts, the categories or the users: whatever page is used, with
    whatever input, the three tables (and with them every stored password
    hash) are those the initialisation left.  In a reachable store the
    accounts and categories are the seed rows, so that the ids 1 and 2 the
    dashboard asks for are the USD and the INR account. *)
Theorem runs_keep_master_data (env env' : Env) (a : Action) (s : Store) :
  accounts (script_run env' a (init_db env s)) = accounts (init_db env s)
  /\ categories (script_run env' a (init_db env s)) = categories (init_db env s)
  /\ users (script_run env' a (init_db env s)) = users (init_db env s)
  /\ (reachable s ->
      accounts (init_db env s) = seed_accounts
      /\ categories (init_db env s) = seed_categories
      /\ subscript (get_all_accounts (init_db env s)) "US Business Account (USD)" = Ok 1
      /\ subscript (get_all_accounts (init_db env s)) "India Business Account (INR)" = Ok 2).
Proof.
  destruct (script_run_tables env' a (init_db env s)) as (Ha & Hc).
  pose proof (script_run_users env' a (init_db env s)) as Hu.
  rewrite init_db_idempotent in Ha, Hc, Hu.
  split; [exact Ha|]. split; [exact Hc|]. split; [exact Hu|].
  intros Hs. destruct (init_db_seeded env s (reachable_blank_or_seeded s Hs)) as (Hsa & Hsc).
  destruct (seeded_accounts_dict _ Hsa) as (H1 & H2). unfold subscript.
  rewrite H1, H2. by repeat split.
Qed.
End MasterData.

(** ** The monthly frame *)

Lemma ensure_column_new (t : pyval) (df : DataFrame) :
  t ∉ df_columns df ->
  ensure_column t df
  = mkDataFrame (df_index df) (df_columns df ++ [t])%list
                (map (fun cells => cells ++ [0%Q])%list (df_values df)).
Proof. intros Ht. unfold ensure_column. by rewrite bool_decide_eq_false_2. Qed.

Lemma ensure_column_rectangular (t : pyval) (df : DataFrame) :
  rectangular df -> rectangular (ensure_column t df).
Proof.
  intros [Hrows Hcells]. unfold ensure_column.
  destruct (bool_decide _); [by split|]. split; simpl.
  - by rewrite length_map.
  - apply Forall_map. eapply Forall_impl; [exact Hcells|].
    intros cells Hlen. simpl. rewrite !length_app, Hlen. reflexivity.
Qed.

(** The added column reads 0 in every row. *)
Lemma ensure_column_zero (t : pyval) (df : DataFrame) (month : string) :
  rectangular df -> t ∉ df_columns df -> month ∈ df_index df ->
  df_loc (ensure_column t df) month t = Some 0%Q.
Proof.
  intros [Hrows Hcells] Ht Hmonth. rewrite (ensure_column_new t df Ht).
  unfold df_loc. simpl.
  destruct (list_find_elem_of (fun m => m = month) (df_index df) month Hmonth eq_refl)
    as [[i x] Hi].
  rewrite Hi. simpl.
  rewrite list_find_app_r.
  2:{ apply list_find_None, Forall_forall. intros c Hc ->. by apply Ht. }
  simpl. rewrite decide_True by reflexivity. simpl.
  apply list_find_Some in Hi as (Hi & _ & _). apply lookup_lt_Some in Hi.
  rewrite list_lookup_fmap.
  destruct (df_values df !! i) as [cells|] eqn:Hcellsi.
  - simpl. apply (Forall_lookup_1 _ _ _ _ Hcells) in Hcellsi as Hlen.
    rewrite <- Hlen. apply list_lookup_middle. reflexivity.
  - apply lookup_ge_None in Hcellsi. lia.
Qed.

(** A cell that can be read is not changed by the new column. *)
Lemma ensure_column_keeps (t column : pyval) (df : DataFrame) (month : string) (v : Q) :
  df_loc df month column = Some v -> df_loc (ensure_column t df) month column = Some v.
Proof.
  unfold ensure_column. destruct (bool_decide _); [done|].
  unfold df_loc. simpl.
  destruct (list_find _ (df_index df)) as [[i x]|]; [simpl|discriminate].
  destruct (list_find _ (df_columns df)) as [[j y]|] eqn:Hj; [simpl|discriminate].
  rewrite (list_find_app_l _ _ _ _ _ Hj). simpl.
  rewrite list_lookup_fmap. destruct (df_values df !! i) as [cells|]; [simpl|discriminate].
  intros Hv. by apply lookup_app_l_Some.
Qed.

Lemma unique_from_elem {A} `{EqDecision A} (l seen : list A) (x : A) :
  x ∈ fold_left (fun seen x => if bool_decide (x ∈ seen) then seen else (seen ++ [x])%list)
                l seen ->
  x ∈ seen \/ x ∈ l.
Proof.
  revert seen. induction l as [|y l IH]; intros seen; simpl; [by left|].
  intros Hx. apply IH in Hx as [Hx | Hx]; [|right; by apply list_elem_of_further].
  destruct (bool_decide _); [by left|].
  apply elem_of_app in Hx as [Hx | Hx]; [by left|].
  apply list_elem_of_singleton in Hx as ->. right. apply list_elem_of_here.
Qed.

Lemma unique_elem {A} `{EqDecision A} (l : list A) (x : A) : x ∈ unique l -> x ∈ l.
Proof.
  intros Hx. apply unique_from_elem in Hx as [Hx | Hx]; [|exact Hx].
  by apply elem_of_nil in Hx.
Qed.

Lemma pivot_fillna_rectangular (results : list (string * pyval * Q)) :
  rectangular (pivot_fillna results).
Proof.
  unfold pivot_fillna, rectangular. simpl. split; [by rewrite length_map|].
  apply Forall_map, Forall_forall. intros m _. simpl. by rewrite length_map.
Qed.

(** The column labels of the pivot are the values of the [type] column. *)
Lemma pivot_fillna_columns (results : list (string * pyval * Q)) (c : pyval) :
  c ∈ df_columns (pivot_fillna results) -> exists r, r ∈ results /\ snd (fst r) = c.
Proof.
  unfold pivot_fillna. simpl. intros Hc. apply unique_elem, list_elem_of_fmap in Hc.
  destruct Hc as (r & -> & Hr). by exists r.
Qed.

(** The query hands the [type] column over as enum members. *)
Lemma mapM_load_group_members (groups : list group_row) (results : list (string * pyval * Q)) :
  mapM load_group groups = Ok results ->
  Forall (fun r => exists member, snd (fst r) = PyEnum member) results.
Proof.
  revert results. induction groups as [|[[m t] total] groups IH]; intros results; simpl.
  - intros [= <-]. constructor.
  - destruct (enum_result t) as [member|e]; simpl; [|discriminate].
    destruct (mapM load_group groups) as [rest|e]; simpl; [|discriminate].
    intros [= <-]. constructor; [by exists member | by apply IH].
Qed.

(** X22: the two columns that [get_profit_loss_data] adds under the labels
    'income' and 'expense', the ones [dashboard_page] plots, read 0 in every
    row of every frame the function returns, whatever the transactions. *)
Theorem value_columns_always_zero (env : Env) (months : Z) (s : Store) (df : DataFrame)
    (month : string) :
  get_profit_loss_data env months s = Ok df ->
  month ∈ df_index df ->
  df_loc df month (PyStr (value INCOME)) = Some 0%Q
  /\ df_loc df month (PyStr (value EXPENSE)) = Some 0%Q.
Proof.
  unfold get_profit_loss_data. cbv zeta.
  destruct (mapM load_group _) as [results|e] eqn:Hresults; simpl; [|discriminate].
  apply mapM_load_group_members in Hresults.
  destruct results as [|r results]; [intros [= <-] Hm; by apply elem_of_nil in Hm|].
  intros [= <-] Hmonth.
  set (df_pivot := pivot_fillna (r :: results)) in *.
  assert (Hnot : forall label, PyStr label ∉ df_columns df_pivot).
  { intros label Hin. apply pivot_fillna_columns in Hin as (x & Hx & Hlabel).
    rewrite Forall_forall in Hresults. destruct (Hresults x Hx) as [member Hmember].
    congruence. }
  assert (Hindex : forall t d, df_index (ensure_column t d) = df_index d).
  { intros t d. unfold ensure_column. by destruct (bool_decide _). }
  rewrite !Hindex in Hmonth.
  assert (Hincome : df_loc (ensure_column (PyStr (value INCOME)) df_pivot) month
                           (PyStr (value INCOME)) = Some 0%Q).
  { apply ensure_column_zero; [apply pivot_fillna_rectangular|apply Hnot|exact Hmonth]. }
  split.
  - apply ensure_column_keeps, Hincome.
  - apply ensure_column_zero.
    + apply ensure_column_rectangular, pivot_fillna_rectangular.
    + rewrite (ensure_column_new _ _ (Hnot _)). simpl. intros Hin.
      apply elem_of_app in Hin as [Hin | Hin]; [by apply (Hnot (value EXPENSE))|].
      apply list_elem_of_singleton in Hin. discriminate Hin.
    + by rewrite Hindex.
Qed.

Lemma value_columns_always_zero_witness :
  exists df,
    get_profit_loss_data sample_env 6 monthly_example = Ok df
    /\ df_loc df "2024-01" (PyStr (value INCOME)) = Some 0%Q
    /\ df_loc df "2024-01" (PyStr (value EXPENSE)) = Some 0%Q.
Proof.
  exists (mkDataFrame ["2024-01"; "2024-02"]
            [PyEnum INCOME; PyEnum EXPENSE; PyStr "income"; PyStr "expense"]
            [[500%Q; 0%Q; 0%Q; 0%Q]; [0%Q; 100%Q; 0%Q; 0%Q]]).
  assert (E : get_profit_loss_data sample_env 6 monthly_example
              = Ok (mkDataFrame ["2024-01"; "2024-02"]
                      [PyEnum INCOME; PyEnum EXPENSE; PyStr "income"; PyStr "expense"]
                      [[500%Q; 0%Q; 0%Q; 0%Q]; [0%Q; 100%Q; 0%Q; 0%Q]]))
    by (vm_compute; reflexivity).
  split; [exact E|].
  apply (value_columns_always_zero sample_env 6 monthly_example _ "2024-01" E).
  apply list_elem_of_here.
Defined.

Lemma enum_result_name (t : string) (member : TransactionType) :
  enum_result t = Ok member -> t = name member.
Proof.
  unfold enum_result. destruct (bool_decide (t = "INCOME")) eqn:E1.
  - apply bool_decide_eq_true in E1. by intros [= <-].
  - destruct (bool_decide (t = "EXPENSE")) eqn:E2; [|discriminate].
    apply bool_decide_eq_true in E2. by intros [= <-].
Qed.

Lemma name_inj (a b : TransactionType) : name a = name b -> a = b.
Proof. destruct a, b; simpl; congruence. Qed.

(** The cell the pivot takes for a month and a member is the total the query
    lists for the month and the member's name, 0 when it lists none. *)
Lemma load_group_cell (groups : list group_row) (results : list (string * pyval * Q))
    (month : string) (member : TransactionType) :
  mapM load_group groups = Ok results ->
  match find (fun r => bool_decide (fst (fst r) = month /\ snd (fst r) = PyEnum member))
             results with
  | Some r => snd r
  | None => 0%Q
  end = group_total groups month (name member).
Proof.
  revert results. induction groups as [|[[m t] total] groups IH]; intros results; simpl.
  - by intros [= <-].
  - destruct (enum_result t) as [member'|e] eqn:Ht; simpl; [|discriminate].
    destruct (mapM load_group groups) as [rest|e]; simpl; [|discriminate].
    intros [= <-]. rewrite group_total_cons. simpl.
    apply enum_result_name in Ht.
    destruct (decide (m = month /\ t = name member)) as [[Hm Hn] | Hno].
    + rewrite !bool_decide_eq_true_2; [reflexivity|by split|].
      split; [exact Hm|]. f_equal. apply name_inj. congruence.
    + rewrite !bool_decide_eq_false_2; [by apply IH|exact Hno|].
      intros [Hm [= ->]]. by apply Hno.
Qed.

Lemma pivot_fillna_cell (results : list (string * pyval * Q)) (month : string) (c : pyval) :
  month ∈ df_index (pivot_fillna results) -> c ∈ df_columns (pivot_fillna results) ->
  df_loc (pivot_fillna results) month c
  = Some match find (fun r => bool_decide (fst (fst r) = month /\ snd (fst r) = c))
                    results with
         | Some r => snd r
         | None => 0%Q
         end.
Proof.
  unfold pivot_fillna, df_loc. simpl. intros Hmonth Hc.
  destruct (list_find_elem_of (fun m => m = month) _ month Hmonth eq_refl) as [[i x] Hi].
  destruct (list_find_elem_of (fun y => y = c) _ c Hc eq_refl) as [[j y] Hj].
  rewrite Hi, Hj. simpl.
  apply list_find_Some in Hi as (Hi & -> & _). apply list_find_Some in Hj as (Hj & -> & _).
  rewrite list_lookup_fmap, Hi. simpl. rewrite list_lookup_fmap, Hj. reflexivity.
Qed.

Lemma ensure_column_columns (t c : pyval) (df : DataFrame) :
  c ∈ df_columns (ensure_column t df) -> c ∈ df_columns df \/ c = t.
Proof.
  unfold ensure_column. destruct (bool_decide _); [by left|]. simpl.
  intros Hc. apply elem_of_app in Hc as [Hc | Hc]; [by left|].
  right. by apply list_elem_of_singleton.
Qed.

Lemma ensure_column_index (t : pyval) (df : DataFrame) :
  df_index (ensure_column t df) = df_index df.
Proof. unfold ensure_column. by destruct (bool_decide _). Qed.

(** X23: the totals are in the columns labelled by the enum members: for every
    frame the function returns, the cell of a month of the index and a member
    among the columns is the sum of the amounts of the non-void rows of that
    month and type dated within the last [30 * months] days. *)
Theorem member_columns_hold_totals (env : Env) (months : Z) (s : Store) (df : DataFrame)
    (month : string) (member : TransactionType) :
  get_profit_loss_data env months s = Ok df ->
  month ∈ df_index df ->
  PyEnum member ∈ df_columns df ->
  exists total,
    df_loc df month (PyEnum member) = Some total
    /\ (total == month_total (minus_days (today env) (30 * months)) (transactions s)
                             month (name member))%Q.
Proof.
  unfold get_profit_loss_data. cbv zeta.
  destruct (mapM load_group _) as [results|e] eqn:Hresults; simpl; [|discriminate].
  destruct results as [|r results]; [intros [= <-] Hm; by apply elem_of_nil in Hm|].
  intros [= <-] Hmonth Hmember. rewrite !ensure_column_index in Hmonth.
  apply ensure_column_columns in Hmember as [Hmember|]; [|discriminate].
  apply ensure_column_columns in Hmember as [Hmember|]; [|discriminate].
  eexists. split.
  - apply ensure_column_keeps, ensure_column_keeps.
    apply pivot_fillna_cell; assumption.
  - rewrite (load_group_cell _ _ month member Hresults). apply monthly_query_totals.
Qed.

Lemma member_columns_hold_totals_witness :
  exists df total,
    get_profit_loss_data sample_env 6 monthly_example = Ok df
    /\ df_loc df "2024-01" (PyEnum INCOME) = Some total
    /\ (total == month_total (mkDate 2023 8 19) (transactions monthly_example)
                             "2024-01" "INCOME")%Q.
Proof.
  assert (E : get_profit_loss_data sample_env 6 monthly_example
              = Ok (mkDataFrame ["2024-01"; "2024-02"]
                      [PyEnum INCOME; PyEnum EXPENSE; PyStr "income"; PyStr "expense"]
                      [[500%Q; 0%Q; 0%Q; 0%Q]; [0%Q; 100%Q; 0%Q; 0%Q]]))
    by (vm_compute; reflexivity).
  destruct (member_columns_hold_totals sample_env 6 monthly_example _ "2024-01" INCOME E)
    as (total & Hcell & Htotal); [apply list_elem_of_here ..|].
  eexists _, total. split; [exact E|]. split; [exact Hcell | exact Htotal].
Defined.
